(** * Lesson scripts of the reporting-with-python course: a shallow embedding

    The repository is a sequence of executed notebooks.  This development
    embeds the pieces of the scripts that carry logic of their own
    (functions, classes, loops, the two spiders, the data sources that are
    read and written) and states what those pieces do.

    Python integers are [Z]; a Python list is a [list]; a raised exception
    is the [None] of an [option] (or an explicit error constructor where
    the kind of the exception matters); mutable state that a cell threads
    through a loop is passed explicitly. *)

From Stdlib Require Import ZArith Lia QArith Qcanon.
From stdpp Require Import base option list strings gmap sets pretty.

Local Open Scope Z_scope.

(** * 03_python_basics.py *)

Module Basics.

(** ** [range(n)] and the list comprehension of [return_list] *)

(** [range(n)]: the integers [0, 1, ..., n-1]; empty when [n <= 0]. *)
Definition py_range (n : Z) : list Z := seqZ 0 n.

(** [def return_list(n): return [i for i in range(n)]] *)
Definition return_list (n : Z) : list Z := (fun i => i) <$> py_range n.

(** ** The generator [yield_list]

    [[
    def yield_list(n):
        i = 0
        while i < n:
            yield i
            i += 1
    ]]
    Calling [yield_list(n)] runs nothing: it builds a generator object
    whose frame is suspended before the first statement.  Each [next]
    resumes the frame until the next [yield] (giving the value) or until
    the body falls off its end (StopIteration). *)

Inductive gen_pc : Type :=
  | GenCreated                (* before [i = 0] *)
  | GenSuspended (i : Z)      (* stopped at [yield i] *)
  | GenDone.                  (* body finished *)

Record generator : Type := Generator { gen_n : Z; gen_pc_of : gen_pc }.

Definition yield_list (n : Z) : generator := Generator n GenCreated.

(** The test of the [while] with the local [i]: yield or finish. *)
Definition while_head (n i : Z) : option Z * generator :=
  if i <? n then (Some i, Generator n (GenSuspended i))
  else (None, Generator n GenDone).

(** [next(gen)]: [None] in the first component is StopIteration. *)
Definition next (g : generator) : option Z * generator :=
  match gen_pc_of g with
  | GenCreated => while_head (gen_n g) 0
  | GenSuspended i => while_head (gen_n g) (i + 1)
  | GenDone => (None, g)
  end.

(** [list(gen)] / [for i in gen]: call [next] until StopIteration.  The
    fuel bounds the number of [next] calls; [None] is fuel exhausted. *)
Fixpoint drain (fuel : nat) (g : generator) : option (list Z) :=
  match fuel with
  | O => None
  | S fuel' =>
      match next g with
      | (None, _) => Some []
      | (Some v, g') => (fun vs => v :: vs) <$> drain fuel' g'
      end
  end.

(** The same iteration as a relation: [yields g vs] holds when the
    generator, resumed until it is exhausted, gives exactly [vs]. *)
Inductive yields : generator -> list Z -> Prop :=
  | yields_stop g g' : next g = (None, g') -> yields g []
  | yields_value g v g' vs :
      next g = (Some v, g') -> yields g' vs -> yields g (v :: vs).

(** ** [my_mean]

    [[
    def my_mean(arg_list):
        sum_ = 0
        length_count = 0
        for el in arg_list:
            sum_ += el
            length_count += 1
        return sum_/length_count
    ]]
    The elements are taken as integers, so [sum_] and [length_count]
    are exact.  The final [/] is the interpreter's true division of two
    integers: it gives a float (the quotient rounded to a double),
    raises ZeroDivisionError for a zero divisor and OverflowError when
    the quotient is too large for a float.  Floats are not modelled: the
    division is an interface, with the one law the scripts rely on. *)

Inductive div_error : Type := ZeroDivisionError | OverflowError.

Class TrueDiv (Float : Type) : Type := {
  int_truediv : Z -> Z -> Float + div_error;
  int_truediv_zero :
    forall a b, int_truediv a b = inr ZeroDivisionError <-> b = 0
}.

Definition my_mean_loop (arg_list : list Z) : Z * Z :=
  foldl (fun '(sum_, length_count) el => (sum_ + el, length_count + 1))
        (0, 0) arg_list.

Definition my_mean {Float} `{TrueDiv Float} (arg_list : list Z)
    : Float + div_error :=
  let '(sum_, length_count) := my_mean_loop arg_list in
  int_truediv sum_ length_count.

(** An implementation of the interface that does not round: the
    quotient is left as the pair of its numerator and denominator. *)
Definition fraction_div (a b : Z) : (Z * Z) + div_error :=
  if b =? 0 then inr ZeroDivisionError else inl (a, b).

Definition fraction_TrueDiv : TrueDiv (Z * Z).
Proof.
  refine {| int_truediv := fraction_div |}.
  intros a b. unfold fraction_div.
  destruct (Z.eqb_spec b 0); split; intros; congruence.
Defined.

(** ** [my_factorial]

    [[
    def my_factorial(n):
        if n == 0:
            return 1
        else:
            return n * my_factorial(n-1)
    ]]
    Every call takes a frame.  [depth] is the number of nested frames
    the interpreter's recursion limit leaves to the call; [None] is the
    RecursionError raised when the limit is hit. *)
Fixpoint my_factorial (depth : nat) (n : Z) : option Z :=
  match depth with
  | O => None
  | S depth' =>
      if n =? 0 then Some 1
      else v ← my_factorial depth' (n - 1); Some (n * v)
  end.

(** [math.factorial]: [n!] for [n >= 0], ValueError below. *)
Definition math_factorial (n : Z) : option Z :=
  if n <? 0 then None else Some (Z.of_nat (fact (Z.to_nat n))).

(** The sentence "for every integer [n >= 0] the call returns [n!]",
    for an interpreter that leaves [limit] frames to the call. *)
Definition returns_factorial_of_every_nonneg (limit : nat) : Prop :=
  forall n, 0 <= n ->
    my_factorial limit n = Some (Z.of_nat (fact (Z.to_nat n))).

End Basics.

(** * Exceptions and outcomes shared by the script cells *)

Module Py.

Inductive exn : Type :=
  | AssertionError
  | ConnectionError
  | KeyError
  | TypeError
  | ValueError.

(** What running a cell gives: a value, or a raised exception that
    nothing in the scripts catches (no [try] appears in them). *)
Inductive outcome (A : Type) : Type :=
  | Returned (a : A)
  | Raised (e : exn).
Arguments Returned {A} a.
Arguments Raised {A} e.

Definition is_returned {A} (o : outcome A) : bool :=
  match o with Returned _ => true | Raised _ => false end.

End Py.

(** * 13_financial_stats.py *)

Module FinancialStats.

(** The operations of a pandas Series that [awe_osc] calls.  They belong
    to the library; the function is written against this interface.
    [rolling_mean w s] is [s.rolling(w).mean()], which raises for a
    window the library rejects. *)
Class SeriesOps (Series : Type) : Type := {
  s_add : Series -> Series -> Series;
  s_sub : Series -> Series -> Series;
  s_scale : Qc -> Series -> Series;
  rolling_mean : Z -> Series -> option Series
}.

(** [pd.DataFrame(ao)] of a named Series: one column under that name. *)
Record Frame (Series : Type) : Type :=
  MkFrame { frame_column : string; frame_values : Series }.
Arguments MkFrame {Series} _ _.
Arguments frame_column {Series} _.
Arguments frame_values {Series} _.

Definition one_half : Qc := Q2Qc (1 # 2).

(** [[
    def awe_osc(high, low, fast=5, slow=34):
        if slow < fast:
            fast, slow = slow, fast
        median_price = 0.5 * (high + low)
        fast_sma = median_price.rolling(fast).mean()
        slow_sma = median_price.rolling(slow).mean()
        ao = fast_sma - slow_sma
        ao.name = f"AO_{fast}_{slow}"
        return pd.DataFrame(ao)
    ]] *)
Definition awe_osc {Series} `{SeriesOps Series}
    (high low : Series) (fast slow : Z) : option (Frame Series) :=
  let '(fast, slow) := if slow <? fast then (slow, fast) else (fast, slow) in
  let median_price := s_scale one_half (s_add high low) in
  fast_sma ← rolling_mean fast median_price;
  slow_sma ← rolling_mean slow median_price;
  let ao := s_sub fast_sma slow_sma in
  Some (MkFrame ("AO_" +:+ pretty fast +:+ "_" +:+ pretty slow) ao).

(** The oscillator of two windows given smaller first: the mean over the
    smaller window minus the mean over the larger one, in a column named
    after the two windows in that order. *)
Definition awe_osc_ordered {Series} `{SeriesOps Series}
    (high low : Series) (smaller larger : Z) : option (Frame Series) :=
  let median_price := s_scale one_half (s_add high low) in
  minuend ← rolling_mean smaller median_price;
  subtrahend ← rolling_mean larger median_price;
  Some (MkFrame ("AO_" +:+ pretty smaller +:+ "_" +:+ pretty larger)
                (s_sub minuend subtrahend)).

(** The call of the script, [awe_osc(df.High, df.Low)], with the defaults. *)
Definition awe_osc_default {Series} `{SeriesOps Series}
    (high low : Series) : option (Frame Series) :=
  awe_osc high low 5 34.

(** ** A reference instance of the interface

    Series over a positional index with exact rational entries; [None]
    is NaN.  [rolling(w).mean()] is NaN until [w] observations are
    available, and a negative window is rejected. *)

Definition QSeries : Type := list (option Qc).

Definition q_lift2 (f : Qc -> Qc -> Qc) (a b : option Qc) : option Qc :=
  x ← a; y ← b; Some (f x y).

Definition q_sum (xs : list Qc) : Qc := foldr Qcplus (Q2Qc 0) xs.

Definition window_mean (w : nat) (s : QSeries) (i : nat) : option Qc :=
  if decide (w = 0 \/ i + 1 < w)%nat then None
  else xs ← mapM (fun x => x) (take w (drop (i + 1 - w) s));
       Some (q_sum xs / Q2Qc (inject_Z (Z.of_nat w)))%Qc.

Definition q_rolling_mean (w : Z) (s : QSeries) : option QSeries :=
  if w <? 0 then None
  else Some (imap (fun i _ => window_mean (Z.to_nat w) s i) s).

(** An operation on two series aligns them on the index: a position
    that only one of them has gives NaN. *)
Fixpoint q_align (f : Qc -> Qc -> Qc) (a b : QSeries) : QSeries :=
  match a with
  | [] => (fun _ => None) <$> b
  | x :: a' =>
      match b with
      | [] => None :: q_align f a' []
      | y :: b' => q_lift2 f x y :: q_align f a' b'
      end
  end.

#[global] Instance QSeries_ops : SeriesOps QSeries := {|
  s_add := q_align Qcplus;
  s_sub := q_align Qcminus;
  s_scale := fun c (s : QSeries) => (fun x : option Qc => Qcmult c <$> x) <$> s;
  rolling_mean := q_rolling_mean
|}.

(** An integer price, and a frame with its entries as plain fractions. *)
Definition q (n : Z) : option Qc := Some (Q2Qc (inject_Z n)).

Definition show_frame (f : Frame QSeries) : string * list (option Q) :=
  (frame_column f, (fun x : option Qc => this <$> x) <$> frame_values f).

End FinancialStats.

(** * 05_online.py *)

Module Online.
Import Py.

(** A row of price data, as far as the scripts look into it. *)
Definition Row : Type := list (string * Z).

(** The decoded body of a response: a list of records, or an object
    whose fields hold lists of records. *)
Inductive Json : Type :=
  | JRecords (rows : list Row)
  | JObject (fields : list (string * list Row)).

(** [requests.Response]: the status code and, if the body is JSON,
    what [response.json()] returns. *)
Record Response : Type := MkResponse { status_code : Z; json : option Json }.

(** The world a cell runs in: the answers the network will give to the
    coming requests (one per request, in order), the URLs requested so
    far and the lines printed so far (both oldest first). *)
Record World : Type := MkWorld {
  pending : list Response;
  sent : list string;
  stdout : list string
}.

(** [re.get(url, params=params)]: when the network has no answer the
    library raises. *)
Definition re_get (url : string) (w : World) : outcome Response * World :=
  match pending w with
  | [] => (Raised ConnectionError, MkWorld [] (sent w ++ [url]) (stdout w))
  | r :: rs => (Returned r, MkWorld rs (sent w ++ [url]) (stdout w))
  end.

Definition print (line : string) (w : World) : World :=
  MkWorld (pending w) (sent w) (stdout w ++ [line]).

Definition base_url : string := "https://financialmodelingprep.com/api/v3/".

(** [pd.DataFrame.from_dict(response.json())] on a list of records. *)
Definition frame_of_json (r : Response) : outcome (list Row) :=
  match json r with
  | Some (JRecords rows) => Returned rows
  | Some (JObject _) => Raised ValueError
  | None => Raised ValueError
  end.

(** [response.json()['historical']] *)
Fixpoint assoc (k : string) (fields : list (string * list Row))
    : option (list Row) :=
  match fields with
  | [] => None
  | (k', v) :: fields' => if String.eqb k k' then Some v else assoc k fields'
  end.

Definition historical (r : Response) : outcome (list Row) :=
  match json r with
  | Some (JObject fields) =>
      match assoc "historical" fields with
      | Some rows => Returned rows
      | None => Raised KeyError
      end
  | Some (JRecords _) => Raised TypeError
  | None => Raised ValueError
  end.

(** Cells In[21]-In[22]:
    [[
    filing = 'dowjones_constituent'
    response = re.get(base_url+filing, params=params)
    print(response.status_code)
    dji_df = pd.DataFrame.from_dict(response.json())
    ]] *)
Definition dowjones_constituent_cell (w : World) : outcome (list Row) * World :=
  let filing := "dowjones_constituent" in
  match re_get (base_url +:+ filing) w with
  | (Raised e, w1) => (Raised e, w1)
  | (Returned response, w1) =>
      let w2 := print (pretty (status_code response)) w1 in
      (frame_of_json response, w2)
  end.

(** Cell In[24]:
    [[
    filing = 'historical-price-full'
    dji_hist = pd.DataFrame()
    for symbol in dji_symbols[:5]:
        response = re.get(base_url+filing+'/'+symbol, params=params)
        # break the loop if a response error occurs
        if response.status_code != 200:
            print('Error! Aborted')
            break
        temp_df = pd.DataFrame.from_dict(response.json()['historical'], orient='columns')
        temp_df['symbol'] = symbol
        dji_hist = pd.concat([dji_hist, temp_df], ignore_index=True)
        del temp_df
    ]]
    A frame is the list of its rows; the added column pairs every row
    with the symbol. *)
Definition symbol_url (symbol : string) : string :=
  base_url +:+ "historical-price-full" +:+ "/" +:+ symbol.

Fixpoint dji_hist_loop (symbols : list string) (dji_hist : list (Row * string))
    (w : World) : outcome (list (Row * string)) * World :=
  match symbols with
  | [] => (Returned dji_hist, w)
  | symbol :: symbols' =>
      match re_get (symbol_url symbol) w with
      | (Raised e, w1) => (Raised e, w1)
      | (Returned response, w1) =>
          if negb (status_code response =? 200)
          then (Returned dji_hist, print "Error! Aborted" w1)
          else
            match historical response with
            | Raised e => (Raised e, w1)
            | Returned temp_df =>
                let temp_df := (fun row => (row, symbol)) <$> temp_df in
                dji_hist_loop symbols' (dji_hist ++ temp_df) w1
            end
      end
  end.

Definition dji_hist_cell (dji_symbols : list string) (w : World)
    : outcome (list (Row * string)) * World :=
  dji_hist_loop (take 5 dji_symbols) [] w.

(** ** What "printed, not handled" means

    Two worlds agree up to status codes when the network gives the same
    bodies in both and only the status codes may differ.  A cell leaves
    the status code unhandled when, on such worlds, it sends the same
    requests and ends with the same outcome: the code can only show up
    in what is printed. *)
Definition same_bodies (w1 w2 : World) : Prop :=
  Forall2 (fun r1 r2 => json r1 = json r2) (pending w1) (pending w2) /\
  sent w1 = sent w2 /\ stdout w1 = stdout w2.

Definition status_unhandled {A} (cell : World -> outcome A * World) : Prop :=
  forall w1 w2, same_bodies w1 w2 ->
    fst (cell w1) = fst (cell w2) /\
    sent (snd (cell w1)) = sent (snd (cell w2)).

(** The spec's sentence, for the two cells that look at a status code:
    a failed status is printed and has no other effect. *)
Definition status_only_printed : Prop :=
  status_unhandled dowjones_constituent_cell /\
  forall dji_symbols, status_unhandled (dji_hist_cell dji_symbols).

(** The frame the loop has built from the symbols downloaded so far. *)
Definition tagged_rows (symbols : list string) (frames : list (list Row))
    : list (Row * string) :=
  concat (zip_with (fun symbol frame => (fun row => (row, symbol)) <$> frame)
                   symbols frames).

(** A response the loop accepts, carrying [frame]. *)
Definition good_response (r : Response) (frame : list Row) : Prop :=
  status_code r = 200 /\ historical r = Returned frame.

(** Sample answers of the price endpoint. *)
Definition price_row (open_ : Z) : Row := [("open", open_)].

Definition answer (code : Z) (rows : list Row) : Response :=
  MkResponse code (Some (JObject [("symbol", []); ("historical", rows)])).

End Online.

(** * 04_data.py and 09_sklearn.py: the two sanity checks *)

Module Checks.
Import Py.

(** The library calls of cells In[33]-In[35] of 04_data.py. *)
Class SqlFrames (Conn DataFrame : Type) : Type := {
  (** [results = conn.execute(q)] then
      [pd.DataFrame(results.fetchall(), columns=results.keys())] *)
  execute_fetchall : Conn -> string -> DataFrame;
  (** [pd.read_sql_query(q, conn)] *)
  read_sql_query : string -> Conn -> DataFrame;
  (** [df.equals(other)] *)
  equals : DataFrame -> DataFrame -> bool
}.

(** [[
    my_query = 'SELECT * FROM historical_data'
    results = conn.execute(my_query)
    df = pd.DataFrame(results.fetchall(), columns=results.keys())
    df2 = pd.read_sql_query(my_query, conn)
    assert df.equals(df2)
    ]] *)
Definition frames_agree_cell {Conn DataFrame} `{SqlFrames Conn DataFrame}
    (conn : Conn) : outcome (DataFrame * DataFrame) :=
  let my_query := "SELECT * FROM historical_data" in
  let df := execute_fetchall conn my_query in
  let df2 := read_sql_query my_query conn in
  if equals df df2 then Returned (df, df2) else Raised AssertionError.

(** The library calls of cells In[3]-In[4] of 09_sklearn.py.  [Num] is
    the type of a floating-point scalar, [num_eqb] its [==]. *)
Class Scaling (Scaler Array Num : Type) : Type := {
  transform : Scaler -> Array -> Array;    (* scaler.transform(x.reshape(-1,1)) *)
  mean_ : Scaler -> Num;                   (* scaler.mean_ *)
  scale_ : Scaler -> Num;                  (* scaler.scale_ *)
  arr_sub : Array -> Num -> Array;         (* x - c *)
  arr_div : Array -> Num -> Array;         (* x / c *)
  arr_mean : Array -> Num;                 (* x.mean() *)
  num_eqb : Num -> Num -> bool
}.

(** [[
    x_alt_scaled = scaler.transform(x_alt.reshape(-1,1))
    calc_result = x_alt - scaler.mean_
    calc_result /= scaler.scale_
    assert calc_result.mean() == x_alt_scaled.mean()
    ]] *)
Definition transform_by_hand_cell {Scaler Array Num} `{Scaling Scaler Array Num}
    (scaler : Scaler) (x_alt : Array) : outcome (Array * Array) :=
  let x_alt_scaled := transform scaler x_alt in
  let calc_result := arr_sub x_alt (mean_ scaler) in
  let calc_result := arr_div calc_result (scale_ scaler) in
  if num_eqb (arr_mean calc_result) (arr_mean x_alt_scaled)
  then Returned (calc_result, x_alt_scaled)
  else Raised AssertionError.

(** A cell adds nothing to the library calls it makes when it returns
    whatever those calls give: over every implementation of the
    interface, it does not raise by itself. *)
Definition adds_nothing_frames : Prop :=
  forall (Conn DataFrame : Type) (lib : SqlFrames Conn DataFrame) (conn : Conn),
    is_returned (frames_agree_cell conn) = true.

(** A small implementation of the interface: a connection is a pair of
    tables, one seen through each of the two read paths. *)
Definition two_paths : SqlFrames (list Z * list Z) (list Z) := {|
  execute_fetchall := fun conn _ => fst conn;
  read_sql_query := fun _ conn => snd conn;
  equals := fun a b => bool_decide (a = b)
|}.

End Checks.

(** * 06_scraping.py: the two spiders *)

Module Scraping.

(** The methods of a spider that are handed to the framework. *)
Inductive callback : Type := Parse | ParseLinks.

(** [scrapy.Request(url=..., callback=...)] *)
Record Request : Type := MkRequest { req_url : string; req_callback : callback }.

(** A response as far as the spiders look into it:
    [response.url], [response.css('a::attr(href)').extract()] and the
    text nodes of the [p] elements ([css('p::text')], [xpath('//p/text()')]). *)
Record Response : Type := MkResponse {
  url : string;
  a_hrefs : list string;
  p_texts : list string
}.

(** What a callback prints. *)
Inductive printed : Type :=
  | Line (s : string)               (* print(<str>) *)
  | ListRepr (l : list string).     (* print(<list of str>) *)

(** A spider: its name, its seed requests and what each callback does
    with a response: the lines it prints and the requests it yields.
    [follow base link] is [response.follow(url=link, ...)], which
    resolves [link] against [response.url]. *)
Record Spider : Type := MkSpider {
  name : string;
  start_requests : list Request;
  on_response : (string -> string -> string) -> callback -> Response ->
                list printed * list Request
}.

Definition join (l : list string) : string := String.concat "" l.

(** [[
    class mySpider(scrapy.Spider):
        name = "my_first"
        def start_requests(self):
            urls = ['http://www.example.com']
            for url in urls:
                yield scrapy.Request(url=url, callback=self.parse)
        def parse(self, response):
            print(response.css('p::text').extract())
    ]] *)
Definition mySpider_parse (response : Response) : list printed * list Request :=
  ([ListRepr (p_texts response)], []).

Definition mySpider : Spider := {|
  name := "my_first";
  start_requests :=
    let urls := ["http://www.example.com"] in
    (fun url => MkRequest url Parse) <$> urls;
  on_response := fun _ cb response =>
    match cb with
    | Parse => mySpider_parse response
    | ParseLinks => ([], [])
    end
|}.

(** [[
    class followSpider(scrapy.Spider):
        name = "my_second"
        def start_requests(self):
            urls = ['http://www.example.com']
            for url in urls:
                yield scrapy.Request(url=url, callback=self.parse_links)
        def parse_links(self, response):
            links = response.css('a::attr(href)').extract()
            print(''.join(response.xpath('//p/text()').extract()))
            for link in links:
                yield response.follow(url=link, callback=self.parse)
        def parse(self, response):
            print(response.url)
            print(''.join(response.xpath('//p/text()').extract()))
    ]] *)
Definition parse_links (follow : string -> string -> string)
    (response : Response) : list printed * list Request :=
  let links := a_hrefs response in
  ([Line (join (p_texts response))],
   (fun link => MkRequest (follow (url response) link) Parse) <$> links).

Definition parse (response : Response) : list printed * list Request :=
  ([Line (url response); Line (join (p_texts response))], []).

Definition followSpider : Spider := {|
  name := "my_second";
  start_requests :=
    let urls := ["http://www.example.com"] in
    (fun url => MkRequest url ParseLinks) <$> urls;
  on_response := fun follow cb response =>
    match cb with
    | ParseLinks => parse_links follow response
    | Parse => parse response
    end
|}.

(** ** The framework's side

    The scheduler, the downloader and URL resolution belong to scrapy.
    They are parameters: [download] is the web as the downloader sees it
    ([None]: the download fails and no callback runs), [urljoin] resolves
    a link against the URL of the page it is on, and [admits seen r]
    is the scheduler's filter (duplicates, off-site, ...) given the URLs
    downloaded so far. *)
Class Framework : Type := {
  download : string -> option Response;
  urljoin : string -> string -> string;
  admits : list string -> Request -> bool
}.

(** The crawl loop: take a request, download, run its callback, enqueue
    what the callback yields.  Returns the URLs downloaded and the lines
    printed, or [None] when [fuel] steps were not enough.  Pending
    requests are taken first in, first out here; [ScrapingMore.crawl_with]
    leaves the queue discipline open. *)
Fixpoint crawl `{Framework} (spider : Spider) (fuel : nat)
    (queue : list Request) (fetched : list string) (out : list printed)
    : option (list string * list printed) :=
  match queue with
  | [] => Some (fetched, out)
  | r :: queue' =>
      match fuel with
      | O => None
      | S fuel' =>
          if admits fetched r then
            match download (req_url r) with
            | None => crawl spider fuel' queue' (fetched ++ [req_url r]) out
            | Some response =>
                let '(lines, new) := on_response spider urljoin (req_callback r) response in
                crawl spider fuel' (queue' ++ new) (fetched ++ [req_url r])
                      (out ++ lines)
            end
          else crawl spider fuel' queue' fetched out
      end
  end.

(** [proc.crawl(spider); proc.start()] *)
Definition run_spider `{Framework} (spider : Spider) (fuel : nat)
    : option (list string * list printed) :=
  crawl spider fuel (start_requests spider) [] [].

(** The crawl the spec describes: every link of every downloaded page
    is downloaded in turn, down to the pages without links. *)
Definition recurses_through_links `{Framework} (fetched : list string) : Prop :=
  forall u response link,
    u ∈ fetched -> download u = Some response -> link ∈ a_hrefs response ->
    urljoin (url response) link ∈ fetched.

(** A queue all of whose requests are handled by [parse]. *)
Definition parse_only (queue : list Request) : Prop :=
  Forall (fun r => req_callback r = Parse) queue.

(** The spec's sentence about the second spider. *)
Definition crawl_is_recursive : Prop :=
  forall (F : Framework) fuel fetched out,
    run_spider followSpider fuel = Some (fetched, out) ->
    recurses_through_links fetched.

Definition seed_url : string := "http://www.example.com".

(** A web of three pages, each linking to the next; absolute links, a
    scheduler that admits everything. *)
Definition chain_web : Framework := {|
  download := fun u =>
    if String.eqb u "http://www.example.com"
    then Some (MkResponse u ["http://a.example"] ["seed"])
    else if String.eqb u "http://a.example"
    then Some (MkResponse u ["http://b.example"] ["first"])
    else if String.eqb u "http://b.example"
    then Some (MkResponse u [] ["second"])
    else None;
  urljoin := fun _ link => link;
  admits := fun _ _ => true
|}.

End Scraping.

(** * 03_python_basics.py: the classes *)

Module Classes.

(** [[
    class Student():
        def __init__(self, uni, subject, grades):
            self.uni = uni
            self.subject = subject
            self.grades = grades
        def avg_grade(self):
            return np.mean(self.grades)
    ]]
    [G] is the type of a grade (a float in the script). *)
Record Student (G : Type) : Type := MkStudent {
  uni : string;
  subject : string;
  grades : list G
}.
Arguments MkStudent {G} _ _ _.
Arguments uni {G} _.
Arguments subject {G} _.
Arguments grades {G} _.

Definition Student_init {G} (uni subject : string) (grades : list G) : Student G :=
  MkStudent uni subject grades.

Definition avg_grade {G} (np_mean : list G -> G) (self : Student G) : G :=
  np_mean (grades self).

(** [Chris.subject = 'engineering'] *)
Definition set_subject {G} (self : Student G) (s : string) : Student G :=
  MkStudent (uni self) s (grades self).

(** [Chris.grades.append(5.0)] *)
Definition append_grade {G} (self : Student G) (g : G) : Student G :=
  MkStudent (uni self) (subject self) (grades self ++ [g]).

(** [[
    class LocalResident(Student):
        def __init__(self, uni, subject, grades, address):
            super().__init__(uni, subject, grades)
            self.address = address
    ]] *)
Record LocalResident (G : Type) : Type := MkLocalResident {
  as_student : Student G;
  address : string
}.
Arguments MkLocalResident {G} _ _.
Arguments as_student {G} _.
Arguments address {G} _.

Definition LocalResident_init {G} (uni subject : string) (grades : list G)
    (address : string) : LocalResident G :=
  MkLocalResident (Student_init uni subject grades) address.

(** ** Classes the scripts define, and what their constructors set up *)

(** A class statement of the scripts: where it is and what it extends. *)
Record class_def : Type := MkClass {
  cls_name : string;
  cls_file : string;
  cls_line : nat;
  cls_base : option string
}.

Definition repository_classes : list class_def := [
  MkClass "Student" "03_python_basics.py" 712 None;
  MkClass "Student" "03_python_basics.py" 743 None;
  MkClass "LocalResident" "03_python_basics.py" 774 (Some "Student");
  MkClass "mySpider" "06_scraping.py" 403 (Some "scrapy.Spider");
  MkClass "followSpider" "06_scraping.py" 458 (Some "scrapy.Spider")
].

(** A constructor: from the arguments of [__init__] to the object. *)
Record constructor : Type := MkConstructor {
  ctor_args : Type;
  ctor_obj : Type;
  ctor_init : ctor_args -> ctor_obj
}.

(** A constructor establishes [P] when every object it builds satisfies
    [P] for the arguments it was built from, and [P] is a property some
    object could fail. *)
Definition establishes (c : constructor)
    (P : ctor_args c -> ctor_obj c -> Prop) : Prop :=
  (forall a, P a (ctor_init c a)) /\ (exists a o, ~ P a o).

Definition Student_ctor : constructor :=
  MkConstructor (string * string * list Z) (Student Z)
    (fun '(u, s, g) => Student_init u s g).

Definition LocalResident_ctor : constructor :=
  MkConstructor (string * string * list Z * string) (LocalResident Z)
    (fun '(u, s, g, a) => LocalResident_init u s g a).

Definition repository_constructors : list constructor :=
  [Student_ctor; LocalResident_ctor].

(** The spec's sentence: no entity type of the repository's own, and no
    property set up by a constructor of the repository. *)
Definition no_custom_entities : Prop :=
  repository_classes = [] /\
  forall c, c ∈ repository_constructors -> ~ exists P, establishes c P.

End Classes.

(** * 10_dash_II.py: a callback that reads a module-level frame *)

Module Dash.

(** The rows of [df] as far as the callback looks at them:
    the [sector] and the [symbol] column. *)
Definition SectorFrame : Type := list (string * string).

(** [Series.unique()]: the distinct values in order of first appearance. *)
Fixpoint unique_from (seen : list string) (l : list string) : list string :=
  match l with
  | [] => []
  | x :: l' =>
      if bool_decide (x ∈ seen) then unique_from seen l'
      else x :: unique_from (x :: seen) l'
  end.

Definition unique (l : list string) : list string := unique_from [] l.

(** An option of a dropdown: [{'label': i, 'value': i}]. *)
Record dd_option : Type := MkOption { label : string; value : string }.

(** [[
    df = pd.read_csv('data/dji_sector_prices.csv')
    ...
    def set_options_company_dd(sector):
        return [{'label': i, 'value': i}
                for i in df[df.sector==sector].symbol.unique()]
    ]] *)
Definition set_options_company_dd (df : SectorFrame) (sector : string)
    : list dd_option :=
  let selected := filter (fun row => row.1 = sector) df in
  (fun i => MkOption i i) <$> unique (snd <$> selected).

End Dash.

(** * What the scripts read, request and write *)

Module Sources.
Import Scraping.

(** ** URLs and paths *)

Fixpoint drop_prefix (p s : string) : option string :=
  match p, s with
  | EmptyString, _ => Some s
  | String a p', String b s' => if Ascii.eqb a b then drop_prefix p' s' else None
  | String _ _, EmptyString => None
  end.

Definition strip_scheme (u : string) : string :=
  match drop_prefix "https://" u with
  | Some r => r
  | None => match drop_prefix "http://" u with Some r => r | None => u end
  end.

Definition slash : Ascii.ascii := Ascii.ascii_of_nat 47.

Fixpoint until_slash (s : string) : string :=
  match s with
  | EmptyString => EmptyString
  | String c s' => if Ascii.eqb c slash then EmptyString else String c (until_slash s')
  end.

(** The host a URL names. *)
Definition host_of (u : string) : string := until_slash (strip_scheme u).

Fixpoint ends_with (suffix s : string) : bool :=
  if String.eqb s suffix then true
  else match s with
       | EmptyString => false
       | String _ s' => ends_with suffix s'
       end.

(** ** The effects of a script on the outside *)

(** [pd.read_csv] and [pd.read_excel] take a local path or a URL. *)
Inductive location : Type := Url (u : string) | Path (p : string).

Inductive io : Type :=
  | HttpGet (u : string)            (* requests.get(u, ...) *)
  | SpiderCrawl (s : Spider)        (* CrawlerProcess().crawl(s); start() *)
  | YahooTicker (symbol : string)   (* yf.Ticker(symbol).history(...) *)
  | ReadTable (loc : location)      (* pd.read_csv / pd.read_excel *)
  | SqlRead (path : string)         (* queries on the SQLite engine *)
  | SqlWrite (path : string)        (* DataFrame.to_sql *)
  | WriteFile (path : string).      (* to_excel, write_html, write_image *)

Record lesson : Type := MkLesson { script : string; effects : list io }.

Definition wiki_url : string := "https://en.wikipedia.org/w/api.php".

(** The scripts in course order, each with its effects in source order.
    [dji_symbols] is the list of symbols the download loop iterates
    over; it comes out of an earlier response. *)
Definition lessons (dji_symbols : list string) : list lesson := [
  MkLesson "03_python_basics.py" [];
  MkLesson "04_data.py" [
    ReadTable (Path "data/DAX.csv");
    WriteFile "DAX.xlsx";
    SqlWrite "data/dax_db.sqlite";
    SqlRead "data/dax_db.sqlite" ];
  MkLesson "05_online.py" (
    [ HttpGet wiki_url;
      HttpGet "https://en.wikipedia.org/wiki/University_of_Passau";
      HttpGet (Online.base_url +:+ "profile" +:+ "/" +:+ "GOOG");
      HttpGet (Online.base_url +:+ "dowjones_constituent") ]
    ++ ((fun symbol => HttpGet (Online.symbol_url symbol)) <$> take 5 dji_symbols));
  MkLesson "06_scraping.py" [
    HttpGet "https://finance.yahoo.com/quote/AAPL/analysis?p=AAPL";
    SpiderCrawl mySpider;
    SpiderCrawl followSpider ];
  MkLesson "07_graphics.py" [
    ReadTable (Url "https://www.dropbox.com/s/sbqezclbr7qkx5r/BankChurners_mod.csv?dl=1") ];
  MkLesson "08_interactive_plots.py" [
    ReadTable (Path "data/dax.xlsx");
    ReadTable (Path "data/BankChurners.csv");
    ReadTable (Url "https://www.dropbox.com/s/inw5s8x4pp0p0kh/historical_data.csv?dl=1");
    WriteFile "plotly.html";
    WriteFile "plotly.pdf";
    WriteFile "plotly.png" ];
  MkLesson "08_interactive_plots_temp.py" [
    ReadTable (Path "/users/jan/data/dax.xlsx");
    ReadTable (Path "/users/jan/data/BankChurners.csv");
    ReadTable (Url "https://www.dropbox.com/s/inw5s8x4pp0p0kh/historical_data.csv?dl=1") ];
  MkLesson "09_dash_I.py" [];
  MkLesson "09_dash_II.py" [
    ReadTable (Url "https://raw.githubusercontent.com/plotly/datasets/master/imports-85.csv") ];
  MkLesson "09_sklearn.py" [
    ReadTable (Path "data/insurance.csv") ];
  MkLesson "10_dash_II.py" [
    ReadTable (Path "data/dji_sector_prices.csv") ];
  MkLesson "_10_dash_II_alt.py" [
    ReadTable (Path "data/dji_100_days.csv");
    ReadTable (Url "https://raw.githubusercontent.com/plotly/datasets/master/imports-85.csv") ];
  MkLesson "12_markdown.py" [];
  MkLesson "13_financial_stats.py" [
    YahooTicker "MSFT";
    YahooTicker "AMD";
    YahooTicker "AAPL" ]
].

(** ** Remote endpoints *)

(** The URLs an effect names.  [yfinance] talks to Yahoo Finance by
    itself; the follow-up requests of a spider are not named in the
    script (they are the links of the pages it downloads). *)
Definition named_urls (e : io) : list string :=
  match e with
  | HttpGet u => [u]
  | SpiderCrawl s => req_url <$> start_requests s
  | ReadTable (Url u) => [u]
  | _ => []
  end.

(** The local files an effect reads or writes. *)
Definition read_paths (e : io) : list string :=
  match e with
  | ReadTable (Path p) => [p]
  | SqlRead p => [p]
  | _ => []
  end.

Definition written_paths (e : io) : list string :=
  match e with
  | SqlWrite p => [p]
  | WriteFile p => [p]
  | _ => []
  end.

Definition lesson_reads (l : lesson) : list string := effects l ≫= read_paths.
Definition lesson_writes (l : lesson) : list string := effects l ≫= written_paths.

(** The providers the spec names. *)
Definition spec_hosts : list string :=
  ["en.wikipedia.org"; "financialmodelingprep.com"; "finance.yahoo.com"].

(** The other hosts the scripts name. *)
Definition other_hosts : list string :=
  ["www.example.com"; "www.dropbox.com"; "raw.githubusercontent.com"].

Definition table_file (p : string) : bool :=
  ends_with ".csv" p || ends_with ".xlsx" p || ends_with ".sqlite" p.

(** The spec's sentence on one effect: a request goes to one of the
    three providers; any other data access is a local table file. *)
Definition within_spec_boundary (e : io) : bool :=
  match e with
  | HttpGet u => bool_decide (host_of u ∈ spec_hosts)
  | SpiderCrawl s =>
      forallb (fun r => bool_decide (host_of (req_url r) ∈ spec_hosts))
              (start_requests s)
  | YahooTicker _ => true
  | ReadTable (Url _) => false
  | ReadTable (Path p) => table_file p
  | SqlRead p => table_file p
  | SqlWrite p => table_file p
  | WriteFile _ => true
  end.

(** What the scripts do: requests and remote table reads go to the
    providers of the spec or to one of the three other hosts. *)
Definition within_boundary (e : io) : bool :=
  match e with
  | ReadTable (Path p) => table_file p
  | SqlRead p => table_file p
  | SqlWrite p => table_file p
  | _ => forallb (fun u => bool_decide (host_of u ∈ spec_hosts ++ other_hosts))
                 (named_urls e)
  end.

(** The spec's sentence on the whole course. *)
Definition only_spec_boundaries : Prop :=
  forall dji_symbols l e,
    l ∈ lessons dji_symbols -> e ∈ effects l -> within_spec_boundary e = true.

(** The hosts the scripts name, in order of first appearance. *)
Definition named_hosts (ls : list lesson) : list string :=
  Dash.unique (host_of <$> (ls ≫= fun l => effects l ≫= named_urls)).

(** ** Durable state *)

(** The files of a working directory, each with the script that wrote
    it last; a file that is absent from the map is as it was shipped. *)
Definition run_effect (who : string) (e : io)
    (st : gmap string string * list (string * string * option string))
    : gmap string string * list (string * string * option string) :=
  let '(fs, observed) := st in
  (foldr (fun p fs => <[p := who]> fs) fs (written_paths e),
   observed ++ ((fun p => (who, p, fs !! p)) <$> read_paths e)).

Definition run_lesson (l : lesson)
    (st : gmap string string * list (string * string * option string)) :=
  foldl (fun st e => run_effect (script l) e st) st (effects l).

(** "Run this lesson, then the next." *)
Definition run_course (ls : list lesson)
    (st : gmap string string * list (string * string * option string)) :=
  foldl (fun st l => run_lesson l st) st ls.

Definition csv_or_sqlite (p : string) : bool :=
  ends_with ".csv" p || ends_with ".sqlite" p.

(** No script reads a file that another script writes. *)
Definition no_cross_lesson_reads (ls : list lesson) : Prop :=
  forall l1 l2 p, l1 ∈ ls -> l2 ∈ ls -> script l1 <> script l2 ->
    p ∈ lesson_writes l1 -> p ∉ lesson_reads l2.

(** The spec's sentence: nothing durable but CSV and SQLite files is
    written, and no script reads what another script wrote. *)
Definition no_state_across_lessons (ls : list lesson) : Prop :=
  (forall l p, l ∈ ls -> p ∈ lesson_writes l -> csv_or_sqlite p = true) /\
  no_cross_lesson_reads ls.

Definition only_csv_sqlite_persist : Prop :=
  forall dji_symbols, no_state_across_lessons (lessons dji_symbols).

(** The script, the local files it reads and the local files it writes. *)
Definition file_view (l : lesson) : string * list string * list string :=
  (script l, lesson_reads l, lesson_writes l).

(** The check of [no_cross_lesson_reads] on such views. *)
Definition disjoint_views (v1 v2 : string * list string * list string) : bool :=
  let '(s1, _, w1) := v1 in
  let '(s2, r2, _) := v2 in
  String.eqb s1 s2 || forallb (fun p => negb (bool_decide (p ∈ r2))) w1.

Definition views_disjoint (vs : list (string * list string * list string)) : bool :=
  forallb (fun v1 => forallb (disjoint_views v1) vs) vs.

End Sources.

(** * The functions the scripts define *)

Module Functions.

(** What a function of the scripts can depend on besides its arguments:
    the number of frames the interpreter's recursion limit leaves to a
    call, and the module-level frame of the dashboard lesson, loaded
    from a file. *)
Record Globals : Type := MkGlobals {
  recursion_limit : nat;
  df : Dash.SectorFrame
}.

Record lesson_function : Type := MkFunction {
  fn_name : string;
  fn_args : Type;
  fn_result : Type;
  fn_body : Globals -> fn_args -> fn_result
}.


(** The result depends only on the arguments. *)
Definition args_determined (f : lesson_function) : Prop :=
  forall (g1 g2 : Globals) (a : fn_args f), fn_body f g1 a = fn_body f g2 a.

Section Catalogue.
Context {Float : Type} {float_div : Basics.TrueDiv Float}.
Context {Series : Type} {series_ops : FinancialStats.SeriesOps Series}.

Definition fn_my_factorial : lesson_function :=
  MkFunction "my_factorial" Z (option Z)
    (fun g n => Basics.my_factorial (recursion_limit g) n).
Definition fn_set_options_company_dd : lesson_function :=
  MkFunction "set_options_company_dd" string (list Dash.dd_option)
    (fun g sector => Dash.set_options_company_dd (df g) sector).



End Catalogue.

End Functions.

(** * 03_python_basics.py: more of the functions and cells *)

Module BasicsMore.
Import Basics.

(** [next(gen)] called [k] times in a row (cell In[37]); StopIteration
    ([None]) ends the cell. *)
Fixpoint next_times (k : nat) (g : generator) : option (list Z) * generator :=
  match k with
  | O => (Some [], g)
  | S k' =>
      match next g with
      | (None, g') => (None, g')
      | (Some v, g') =>
          let '(vs, g'') := next_times k' g' in
          ((fun vs => v :: vs) <$> vs, g'')
      end
  end.

(** [for i in gen], keeping the generator object the loop leaves behind. *)
Fixpoint exhaust (fuel : nat) (g : generator) : option (list Z * generator) :=
  match fuel with
  | O => None
  | S fuel' =>
      match next g with
      | (None, g') => Some ([], g')
      | (Some v, g') => (fun '(vs, g'') => (v :: vs, g'')) <$> exhaust fuel' g'
      end
  end.


End BasicsMore.

(** * 06_scraping.py: the table of the analysis page and the callback example *)

Module ScrapingTable.

(** [enumerate(l)] *)
Fixpoint enumerate_from {A} (i : nat) (l : list A) : list (nat * A) :=
  match l with
  | [] => []
  | x :: l' => (i, x) :: enumerate_from (S i) l'
  end.

Definition enumerate {A} (l : list A) : list (nat * A) := enumerate_from 0 l.

(** [labels = [el for i, el in enumerate(table_body) if i%5==0]] *)
Definition labels (table_body : list string) : list string :=
  snd <$> filter (fun p => (p.1 mod 5 = 0)%nat) (enumerate table_body).

(** [data = [el for i, el in enumerate(table_body) if i%5!=0]] *)
Definition data (table_body : list string) : list string :=
  snd <$> filter (fun p => (p.1 mod 5 <> 0)%nat) (enumerate table_body).

(** [l[a:b]] for [0 <= a <= b]; the slice is cut at the end of the list. *)
Definition slice {A} (l : list A) (a b : nat) : list A := take (b - a) (drop a l).

(** [{labels[x]: [el for el in data[x:x+4]] for x in range(len(labels))}] *)
Definition table_dict_entry (labels data : list string)
    (d : gmap string (list string)) (x : nat) : gmap string (list string) :=
  match labels !! x with
  | Some label => <[label := (fun el => el) <$> slice data x (x + 4)]> d
  | None => d
  end.

Definition table_dict (labels data : list string) : gmap string (list string) :=
  foldl (table_dict_entry labels data) ∅ (seq 0 (length labels)).

(** The text of a table, row after row: a label and then the cells. *)
Definition table_text (rows : list (string * list string)) : list string :=
  rows ≫= fun row => row.1 :: row.2.

(** [[
    def enter_string(string, callback):
        print(string)
        callback(string)
    def print_len(x):
        print(len(x))
    ]]
    A callback is what it prints. *)
Definition enter_string (string : String.string)
    (callback : String.string -> list String.string) : list String.string :=
  [string] ++ callback string.

Definition print_len (x : string) : list string :=
  [pretty (Z.of_nat (String.length x))].

End ScrapingTable.

(** * 06_scraping.py: what the second spider prints *)

Module ScrapingMore.
Import Scraping.

(** The two lines [parse] prints for the page behind [u], if it loads. *)
Definition page_lines `{Framework} (u : string) : list printed :=
  match download u with
  | Some response => [Line (url response); Line (join (p_texts response))]
  | None => []
  end.

(** The crawl loop with the queue discipline of the scheduler left
    open: [schedule pending new] is the queue once the requests a
    callback yielded have been handed over.  scrapy's default scheduler
    takes the request handed over last first. *)
Fixpoint crawl_with `{Framework}
    (schedule : list Request -> list Request -> list Request)
    (spider : Spider) (fuel : nat)
    (queue : list Request) (fetched : list string) (out : list printed)
    : option (list string * list printed) :=
  match queue with
  | [] => Some (fetched, out)
  | r :: queue' =>
      match fuel with
      | O => None
      | S fuel' =>
          if admits fetched r then
            match download (req_url r) with
            | None =>
                crawl_with schedule spider fuel' queue' (fetched ++ [req_url r]) out
            | Some response =>
                let '(lines, new) :=
                  on_response spider urljoin (req_callback r) response in
                crawl_with schedule spider fuel' (schedule queue' new)
                           (fetched ++ [req_url r]) (out ++ lines)
            end
          else crawl_with schedule spider fuel' queue' fetched out
      end
  end.

Definition run_spider_with `{Framework}
    (schedule : list Request -> list Request -> list Request)
    (spider : Spider) (fuel : nat) : option (list string * list printed) :=
  crawl_with schedule spider fuel (schedule [] (start_requests spider)) [] [].

Definition first_in_first_out (pending new : list Request) : list Request :=
  pending ++ new.

Definition last_in_first_out (pending new : list Request) : list Request :=
  reverse new ++ pending.

(** A seed page with two links; a scheduler that drops a request for a
    page downloaded before. *)
Definition fork_web : Framework := {|
  download := fun u =>
    if String.eqb u "http://www.example.com"
    then Some (MkResponse u ["http://a.example"; "http://b.example"] ["seed"])
    else if String.eqb u "http://a.example"
    then Some (MkResponse u [] ["first"])
    else if String.eqb u "http://b.example"
    then Some (MkResponse u ["http://c.example"] ["second"])
    else None;
  urljoin := fun _ link => link;
  admits := fun seen r => negb (bool_decide (req_url r ∈ seen))
|}.

End ScrapingMore.

(** * 09_dash_II.py and 10_dash_II.py: decorators and callbacks *)

Module Decorators.

(** A function as a decorator sees it: called on its arguments it
    prints some lines and then returns ([inl]) or raises ([inr]). *)
Definition printing (A R E : Type) : Type := A -> list string * (R + E).

Definition header : string := "##################".
Definition footer : string := "!!!!!!!!!!!!!!!!!!".

(** [[
    def emphasize_decorator(func):
        def wrapper( *args, **kwargs):
            print('##################')
            func( *args, **kwargs)
            print('!!!!!!!!!!!!!!!!!!')
        return wrapper
    ]]
    The wrapper has no [return] (it gives [None]) and no [try]. *)
Definition emphasize_decorator {A R E} (func : printing A R E) : printing A unit E :=
  fun args =>
    let '(out, res) := func args in
    match res with
    | inl _ => ([header] ++ out ++ [footer], inl tt)
    | inr e => ([header] ++ out, inr e)
    end.

Definition newline : string := String (Ascii.ascii_of_nat 10) EmptyString.

(** [def text_to_wrap(): print('my text')] *)
Definition text_to_wrap {E} : printing unit unit E :=
  fun _ => (["my text"], inl tt).

(** [def print_greeting(): print('Hello')] *)
Definition print_greeting {E} : printing unit unit E :=
  fun _ => (["Hello"], inl tt).

(** [def text_to_wrap(w1, w2): print(f"{w1}\n{w2}")] *)
Definition text_to_wrap2 {E} : printing (string * string) unit E :=
  fun '(w1, w2) => ([w1 +:+ newline +:+ w2], inl tt).


End Decorators.

Module DashMore.
Import Dash.

Inductive error : Type := TypeError | IndexError.

(** [[
    def div_outext(fname, lname):
        if fname:
            return fname[::-1], lname[::-1]
    ]]
    The value of a text input is a string or [None]; a function that
    falls off its end returns [None].  Names are ASCII, so that the
    reversal by characters is the reversal by bytes. *)
Definition div_outext (fname lname : option string)
    : option (string * string) + error :=
  match fname with
  | None => inl None
  | Some f =>
      if decide (f = EmptyString) then inl None
      else match lname with
           | Some l => inl (Some (String.rev f, String.rev l))
           | None => inr TypeError
           end
  end.

(** [[
    def set_default_company_dd(ops):
        return ops[0]['value']
    ]]
    [ops] is the list of options the callback before it returned. *)
Definition set_default_company_dd (ops : list dd_option) : string + error :=
  match ops with
  | o :: _ => inl (value o)
  | [] => inr IndexError
  end.

(** [month_marks = {i+1:str(i+1) for i in range(df.month.max())}] *)
Definition month_marks (max_month : Z) : gmap Z string :=
  foldl (fun d i => <[i + 1 := pretty (i + 1)]> d) ∅ (Basics.py_range max_month).

End DashMore.

(** * Theorems *)

Section BasicsFacts.
Import Basics.

Example return_list_5 : return_list 5 = [0; 1; 2; 3; 4].
Proof. reflexivity. Qed.

Example drain_5 : drain 6 (yield_list 5) = Some [0; 1; 2; 3; 4].
Proof. reflexivity. Qed.

(** Cells In[36]-In[38]: three [next] calls, then the loop finishes. *)
Example next_thrice_then_loop :
  let g0 := yield_list 5 in
  let '(a, g1) := next g0 in
  let '(b, g2) := next g1 in
  let '(c, g3) := next g2 in
  (a, b, c, drain 3 g3) = (Some 0, Some 1, Some 2, Some [3; 4]).
Proof. reflexivity. Qed.

Example my_factorial_5 : my_factorial 6 5 = Some 120.
Proof. reflexivity. Qed.

(** [my_mean(data)]: the division is asked for 28 by 7. *)
Example my_mean_data :
  my_mean (H := fraction_TrueDiv) [1; 2; 3; 4; 5; 6; 7] = inl (28, 7).
Proof. reflexivity. Qed.

End BasicsFacts.

(** ** [return_list] against [yield_list] *)

Section YieldList.
Import Basics.

Lemma return_list_range (n : Z) : return_list n = py_range n.
Proof. unfold return_list. apply list_fmap_id. Qed.

Lemma py_range_nat (n : nat) : py_range (Z.of_nat n) = Z.of_nat <$> seq 0 n.
Proof.
  unfold py_range, seqZ. rewrite Nat2Z.id.
  apply list_fmap_ext; intros _ i _. lia.
Qed.

Lemma while_head_lt (n j : Z) :
  j < n -> while_head n j = (Some j, Generator n (GenSuspended j)).
Proof. intros H. unfold while_head. destruct (Z.ltb_spec j n); [done | lia]. Qed.

Lemma while_head_ge (n j : Z) :
  n <= j -> while_head n j = (None, Generator n GenDone).
Proof. intros H. unfold while_head. destruct (Z.ltb_spec j n); [lia | done]. Qed.

(** From a frame about to test [j < n], [k = n - j] more values come. *)
Lemma drain_from (n : Z) (k : nat) :
  forall (j : Z) (g : generator) (fuel : nat),
    next g = while_head n j -> n - j = Z.of_nat k -> (k < fuel)%nat ->
    drain fuel g = Some (seqZ j (Z.of_nat k)).
Proof.
  induction k as [|k IH]; intros j g fuel Hg Hk Hf;
    (destruct fuel as [|fuel]; [lia|]); cbn [drain]; rewrite Hg.
  - rewrite while_head_ge by lia. reflexivity.
  - rewrite while_head_lt by lia.
    rewrite (IH (j + 1) (Generator n (GenSuspended j)) fuel); [|done|lia|lia].
    rewrite (seqZ_cons j (Z.of_nat (S k))) by lia.
    cbn. do 3 f_equal; lia.
Qed.

Lemma yields_from (n : Z) (k : nat) :
  forall (j : Z) (g : generator),
    next g = while_head n j -> n - j = Z.of_nat k ->
    yields g (seqZ j (Z.of_nat k)).
Proof.
  induction k as [|k IH]; intros j g Hg Hk.
  - apply yields_stop with (g' := Generator n GenDone).
    rewrite Hg. apply while_head_ge. lia.
  - rewrite (seqZ_cons j (Z.of_nat (S k))) by lia.
    apply yields_value with (g' := Generator n (GenSuspended j)).
    + rewrite Hg. apply while_head_lt. lia.
    + replace (Z.succ j) with (j + 1) by lia.
      replace (Z.pred (Z.of_nat (S k))) with (Z.of_nat k) by lia.
      apply IH; [done | lia].
Qed.

(** Resuming a generator is deterministic: it has one full sequence. *)
Lemma yields_functional (g : generator) (vs ws : list Z) :
  yields g vs -> yields g ws -> vs = ws.
Proof.
  intros Hv. revert ws.
  induction Hv as [g g' Hn | g v g' vs Hn _ IH]; intros ws Hw;
    inversion Hw as [g1 g1' Hn' | g1 w g1' ws' Hn' Hw']; subst;
    rewrite Hn in Hn'; try discriminate; [reflexivity|].
  injection Hn' as -> ->. f_equal. by apply IH.
Qed.

(** C8.  For every natural number [n], [return_list(n)] is
    [[0, 1, ..., n-1]], the sequence of [range(n)], and the generator
    [yield_list(n)] resumed until StopIteration yields exactly that
    sequence: it is exhausted after [n] values (any budget of more than
    [n] calls of [next] drains it), and it has no other run. *)
Theorem return_list_eq_yield_list (n : nat) :
  return_list (Z.of_nat n) = Z.of_nat <$> seq 0 n /\
  return_list (Z.of_nat n) = py_range (Z.of_nat n) /\
  yields (yield_list (Z.of_nat n)) (return_list (Z.of_nat n)) /\
  (forall vs, yields (yield_list (Z.of_nat n)) vs ->
              vs = return_list (Z.of_nat n)) /\
  (forall fuel, (n < fuel)%nat ->
     drain fuel (yield_list (Z.of_nat n)) = Some (return_list (Z.of_nat n))).
Proof.
  assert (Hy : yields (yield_list (Z.of_nat n)) (return_list (Z.of_nat n))).
  { rewrite return_list_range. unfold py_range.
    apply yields_from with (n := Z.of_nat n); [reflexivity | lia]. }
  repeat split.
  - rewrite return_list_range. apply py_range_nat.
  - apply return_list_range.
  - exact Hy.
  - intros vs Hvs. exact (yields_functional _ _ _ Hvs Hy).
  - intros fuel Hf. rewrite return_list_range. unfold py_range.
    apply drain_from with (n := Z.of_nat n); [reflexivity | lia | done].
Qed.

Lemma return_list_eq_yield_list_witness :
  drain 4 (yield_list 3) = Some (return_list 3) /\
  (forall vs, yields (yield_list 3) vs -> vs = [0; 1; 2]).
Proof.
  split.
  - apply (proj2 (proj2 (proj2 (proj2 (return_list_eq_yield_list 3)))) 4%nat). lia.
  - exact (proj1 (proj2 (proj2 (proj2 (return_list_eq_yield_list 3))))).
Defined.

End YieldList.

(** ** [my_factorial] *)

Section Factorial.
Import Basics.

Lemma my_factorial_nat (k : nat) :
  forall depth, (k < depth)%nat ->
    my_factorial depth (Z.of_nat k) = Some (Z.of_nat (fact k)).
Proof.
  induction k as [|k IH]; intros depth Hd;
    (destruct depth as [|depth]; [lia|]); cbn [my_factorial].
  - reflexivity.
  - destruct (Z.eqb_spec (Z.of_nat (S k)) 0) as [E|_]; [lia|].
    replace (Z.of_nat (S k) - 1) with (Z.of_nat k) by lia.
    rewrite IH by lia. cbn [mbind option_bind]. f_equal.
    change (fact (S k)) with (S k * fact k)%nat. lia.
Qed.

Lemma my_factorial_negative (depth : nat) :
  forall n, n < 0 -> my_factorial depth n = None.
Proof.
  induction depth as [|depth IH]; intros n Hn; cbn [my_factorial]; [done|].
  destruct (Z.eqb_spec n 0) as [E|_]; [lia|].
  rewrite IH by lia. reflexivity.
Qed.

(** With [depth] frames the recursion cannot get from [n >= depth] down
    to the base case. *)
Lemma my_factorial_limit_hit (depth : nat) :
  forall n, Z.of_nat depth <= n -> my_factorial depth n = None.
Proof.
  induction depth as [|depth IH]; intros n Hn; cbn [my_factorial]; [done|].
  destruct (Z.eqb_spec n 0) as [E|_]; [lia|].
  rewrite IH by lia. reflexivity.
Qed.

(** C10 (as the spec has it) fails: with the 1000 frames of the
    interpreter's default recursion limit, [my_factorial(1000)] does not
    return [1000!]; the limit is hit first (RecursionError). *)
Lemma returns_factorial_of_every_nonneg_fails :
  ~ returns_factorial_of_every_nonneg 1000.
Proof.
  intros H. specialize (H 1000 ltac:(lia)).
  rewrite (my_factorial_limit_hit 1000 1000) in H by lia.
  discriminate H.
Qed.

(** C10 (as the code has it).  [my_factorial(n)] returns [n!], the
    value of [math.factorial(n)], for every integer [n >= 0] that is
    below the number of frames the recursion limit leaves to the call
    (the recursion descends from [n] to the base case [0], one frame per
    step).  For a larger [n], and for every negative integer, the
    recursion uses up the limit before it reaches the base case: the
    call ends with RecursionError, it does not run forever. *)
Theorem my_factorial_within_recursion_limit (depth : nat) (n : Z) :
  (0 <= n < Z.of_nat depth ->
     my_factorial depth n = Some (Z.of_nat (fact (Z.to_nat n))) /\
     my_factorial depth n = math_factorial n) /\
  (Z.of_nat depth <= n -> my_factorial depth n = None) /\
  (n < 0 -> my_factorial depth n = None).
Proof.
  split; [|split].
  - intros [Hn Hd].
    assert (Hv : my_factorial depth n = Some (Z.of_nat (fact (Z.to_nat n)))).
    { rewrite <- (Z2Nat.id n) at 1 by done. apply my_factorial_nat. lia. }
    split; [exact Hv|]. rewrite Hv. unfold math_factorial.
    destruct (Z.ltb_spec n 0); [lia | done].
  - apply my_factorial_limit_hit.
  - apply my_factorial_negative.
Qed.

Lemma my_factorial_within_recursion_limit_witness :
  my_factorial 6 5 = Some 120 /\
  my_factorial 3 5 = None /\
  my_factorial 9 (-3) = None.
Proof.
  split; [|split].
  - exact (proj1 (proj1 (my_factorial_within_recursion_limit 6 5) ltac:(lia))).
  - apply (proj1 (proj2 (my_factorial_within_recursion_limit 3 5))). lia.
  - apply (proj2 (proj2 (my_factorial_within_recursion_limit 9 (-3)))). lia.
Defined.

End Factorial.

(** ** [awe_osc] *)

Section AweOsc.
Import FinancialStats.
Context {Series : Type} `{SeriesOps Series}.

Lemma awe_osc_le (high low : Series) (a b : Z) :
  a <= b -> awe_osc high low a b = awe_osc_ordered high low a b.
Proof.
  intros Hab. unfold awe_osc, awe_osc_ordered.
  destruct (Z.ltb_spec b a); [lia | reflexivity].
Qed.

Lemma awe_osc_gt (high low : Series) (a b : Z) :
  b < a -> awe_osc high low a b = awe_osc_ordered high low b a.
Proof.
  intros Hab. unfold awe_osc, awe_osc_ordered.
  destruct (Z.ltb_spec b a); [reflexivity | lia].
Qed.

Lemma awe_osc_min_max (high low : Series) (a b : Z) :
  awe_osc high low a b = awe_osc_ordered high low (Z.min a b) (Z.max a b).
Proof.
  destruct (Z.le_gt_cases a b) as [Hle|Hgt].
  - rewrite awe_osc_le by done. by rewrite Z.min_l, Z.max_r.
  - rewrite awe_osc_gt by done. by rewrite Z.min_r, Z.max_l by lia.
Qed.

(** C9.  [awe_osc] is commutative in its two window sizes: for all
    price series and all positive integers [a] and [b], the calls with
    [(a, b)] and with [(b, a)] return the same frame, because either way
    the mean over the smaller window is the minuend and the column is
    named with the smaller window first. *)
Theorem awe_osc_commutative (high low : Series) (a b : Z) :
  0 < a -> 0 < b ->
  awe_osc high low a b = awe_osc high low b a /\
  awe_osc high low a b = awe_osc_ordered high low (Z.min a b) (Z.max a b).
Proof.
  intros _ _. split; [|apply awe_osc_min_max].
  rewrite !awe_osc_min_max. by rewrite Z.min_comm, Z.max_comm.
Qed.

End AweOsc.

Section AweOscRun.
Import FinancialStats.

(** The column of [awe_osc] on five days of prices, windows 3 and 2. *)
Example awe_osc_run :
  show_frame <$>
    awe_osc [q 2; q 4; q 6; q 8; q 10] [q 0; q 2; q 2; q 4; q 6] 3 2
  = Some ("AO_2_3", [None; None; Some (5 # 6); Some (2 # 3); Some (1 # 1)]%Q).
Proof. vm_compute. reflexivity. Qed.

Lemma awe_osc_commutative_witness :
  awe_osc [q 2; q 4; q 6; q 8; q 10] [q 0; q 2; q 2; q 4; q 6] 2 3 =
    awe_osc [q 2; q 4; q 6; q 8; q 10] [q 0; q 2; q 2; q 4; q 6] 3 2 /\
  awe_osc [q 2; q 4; q 6; q 8; q 10] [q 0; q 2; q 2; q 4; q 6] 2 3 =
    awe_osc_ordered [q 2; q 4; q 6; q 8; q 10] [q 0; q 2; q 2; q 4; q 6]
                    (Z.min 2 3) (Z.max 2 3).
Proof.
  apply (awe_osc_commutative [q 2; q 4; q 6; q 8; q 10]
                             [q 0; q 2; q 2; q 4; q 6] 2 3); lia.
Defined.

End AweOscRun.

(** ** The status code of a response (05_online.py) *)

Section StatusCode.
Import Py Online.

Lemma re_get_answered (u : string) (r : Response) (rs : list Response)
    (sent0 out0 : list string) :
  re_get u (MkWorld (r :: rs) sent0 out0)
  = (Returned r, MkWorld rs (sent0 ++ [u]) out0).
Proof. reflexivity. Qed.

(** The cell that prints the status code goes on whatever the code is. *)
Lemma dowjones_constituent_unhandled : status_unhandled dowjones_constituent_cell.
Proof.
  intros [p1 s1 o1] [p2 s2 o2] (Hp & Hs & Ho); cbn in Hp, Hs, Ho; subst.
  unfold dowjones_constituent_cell, re_get; cbn [pending sent stdout].
  destruct Hp as [|r1 r2 rs1 rs2 Hj _]; cbn; [done|].
  unfold frame_of_json. by rewrite Hj.
Qed.

Lemma dji_hist_loop_aborts (symbols_ok : list string) :
  forall (oks : list Response) (frames : list (list Row))
         (acc : list (Row * string)) (w : World)
         (symbol : string) (symbols_rest : list string)
         (bad : Response) (rest : list Response),
    length symbols_ok = length oks ->
    Forall2 good_response oks frames ->
    status_code bad <> 200 ->
    pending w = oks ++ bad :: rest ->
    dji_hist_loop (symbols_ok ++ symbol :: symbols_rest) acc w
    = (Returned (acc ++ tagged_rows symbols_ok frames),
       MkWorld rest
               (sent w ++ (symbol_url <$> symbols_ok ++ [symbol]))
               (stdout w ++ ["Error! Aborted"])).
Proof.
  induction symbols_ok as [|s ss IH];
    intros oks frames acc [p sn out] symbol symbols_rest bad rest Hlen Hok Hbad Hp;
    cbn [pending sent stdout] in *; subst p.
  - destruct oks; [|done]. inversion Hok; subst.
    cbn [app dji_hist_loop]. rewrite re_get_answered.
    destruct (Z.eqb_spec (status_code bad) 200) as [E|_]; [done|].
    cbn. by rewrite app_nil_r.
  - destruct oks as [|r oks]; [done|].
    inversion Hok as [|r' f oks' fs [Hst Hh] Hrest]; subst.
    cbn [app dji_hist_loop]. rewrite re_get_answered, Hst, Hh. cbn [Z.eqb negb Pos.eqb].
    rewrite (IH oks fs _ _ symbol symbols_rest bad rest); cbn [pending sent stdout];
      [|by injection Hlen|done|done|done].
    unfold tagged_rows. cbn [zip_with concat fmap list_fmap].
    by rewrite <- !(assoc_L (++)).
Qed.

(** The loop sends one request per symbol, in order, up to the point
    where it stops; none is sent twice. *)
Lemma dji_hist_loop_sends_once (symbols : list string) :
  forall (acc : list (Row * string)) (w : World),
    exists k, (k <= length symbols)%nat /\
      sent (snd (dji_hist_loop symbols acc w))
      = sent w ++ (symbol_url <$> take k symbols).
Proof.
  induction symbols as [|s ss IH]; intros acc [p sn out].
  - exists 0%nat. cbn. by rewrite app_nil_r.
  - cbn [dji_hist_loop]. unfold re_get; cbn [pending sent stdout].
    destruct p as [|r rs].
    + exists 1%nat. cbn. split; [lia | done].
    + destruct (negb (status_code r =? 200)).
      * exists 1%nat. cbn. split; [lia | done].
      * destruct (historical r) as [f|e].
        -- destruct (IH (acc ++ ((fun row => (row, s)) <$> f))
                        (MkWorld rs (sn ++ [symbol_url s]) out)) as (k & Hk & ->).
           exists (S k). cbn [sent take fmap list_fmap length].
           split; [lia|]. by rewrite <- (assoc_L (++)).
        -- exists 1%nat. cbn. split; [lia | done].
Qed.

(** C3 (as the code has it).  The cell that requests the index
    constituents prints the status code and goes on whatever it is.  The
    download loop handles a failed status: at the first response whose
    code is not 200 it prints a fixed message and stops; the frame keeps
    the rows of the symbols downloaded before, the request that failed
    is not sent again and no later symbol is requested. *)
Theorem failed_status_aborts_download :
  (status_unhandled dowjones_constituent_cell /\
   forall r rs sent0 out0,
     dowjones_constituent_cell (MkWorld (r :: rs) sent0 out0)
     = (frame_of_json r,
        MkWorld rs (sent0 ++ [base_url +:+ "dowjones_constituent"])
                (out0 ++ [pretty (status_code r)]))) /\
  (forall dji_symbols symbols_ok symbol symbols_rest oks frames bad rest w,
     take 5 dji_symbols = symbols_ok ++ symbol :: symbols_rest ->
     length symbols_ok = length oks ->
     Forall2 good_response oks frames ->
     status_code bad <> 200 ->
     pending w = oks ++ bad :: rest ->
     dji_hist_cell dji_symbols w
     = (Returned (tagged_rows symbols_ok frames),
        MkWorld rest
                (sent w ++ (symbol_url <$> symbols_ok ++ [symbol]))
                (stdout w ++ ["Error! Aborted"]))).
Proof.
  split; [split|].
  - apply dowjones_constituent_unhandled.
  - reflexivity.
  - intros dji_symbols symbols_ok symbol symbols_rest oks frames bad rest w
           Ht Hlen Hok Hbad Hp.
    unfold dji_hist_cell. rewrite Ht.
    by rewrite (dji_hist_loop_aborts symbols_ok oks frames [] w symbol
                  symbols_rest bad rest).
Qed.

End StatusCode.

Section StatusCodeRuns.
Import Py Online.

(** Three symbols, the second request answered with 404: the first
    frame is kept, the third symbol is never requested. *)
Lemma failed_status_aborts_download_witness :
  dji_hist_cell ["AAPL"; "MSFT"; "IBM"]
    (MkWorld [answer 200 [price_row 1]; MkResponse 404 None; answer 200 [price_row 3]]
             [] [])
  = (Returned [(price_row 1, "AAPL")],
     MkWorld [answer 200 [price_row 3]]
             [symbol_url "AAPL"; symbol_url "MSFT"]
             ["Error! Aborted"]).
Proof.
  apply (proj2 failed_status_aborts_download
           ["AAPL"; "MSFT"; "IBM"] ["AAPL"] "MSFT" ["IBM"]
           [answer 200 [price_row 1]] [[price_row 1]]
           (MkResponse 404 None) [answer 200 [price_row 3]]).
  - reflexivity.
  - reflexivity.
  - repeat constructor.
  - cbn. lia.
  - reflexivity.
Defined.

(** C3 (as the spec has it) fails: with the same bodies on the wire and
    only the status code of the answer changed from 200 to 404, the
    download loop ends with a different frame. *)
Lemma status_only_printed_fails : ~ status_only_printed.
Proof.
  intros [_ Hloop].
  destruct (Hloop ["AAPL"]
              (MkWorld [answer 200 [price_row 1]] [] [])
              (MkWorld [answer 404 [price_row 1]] [] [])) as [Hres _].
  - repeat split. repeat constructor.
  - vm_compute in Hres. discriminate Hres.
Qed.

End StatusCodeRuns.

(** ** The two sanity checks (04_data.py, 09_sklearn.py) *)

Section SanityChecks.
Import Py Checks.

(** C4 (as the spec has it) fails: when the two read paths give
    different frames, both library calls return and the cell raises. *)
Lemma adds_nothing_frames_fails : ~ adds_nothing_frames.
Proof.
  intros H. specialize (H _ _ two_paths ([1], [2])). discriminate H.
Qed.

(** C4 (as the code has it).  The operations are calls into the
    libraries, and on top of them the scripts put two consistency checks
    and no retry: the cell of 04_data.py returns exactly when the frame
    read through the connection equals the frame read by
    [read_sql_query], and raises AssertionError otherwise; the cell of
    09_sklearn.py returns exactly when the mean of the hand-made
    transform equals the mean of [scaler.transform]; the download loop
    sends each of its requests once. *)
Theorem checks_layered_on_library_calls :
  (forall (Conn DataFrame : Type) (lib : SqlFrames Conn DataFrame) (conn : Conn),
     let df := execute_fetchall conn "SELECT * FROM historical_data" in
     let df2 := read_sql_query "SELECT * FROM historical_data" conn in
     frames_agree_cell conn
     = if equals df df2 then Returned (df, df2) else Raised AssertionError) /\
  (forall (Scaler Array Num : Type) (lib : Scaling Scaler Array Num)
          (scaler : Scaler) (x_alt : Array),
     let by_hand := arr_div (arr_sub x_alt (mean_ scaler)) (scale_ scaler) in
     let by_library := transform scaler x_alt in
     transform_by_hand_cell scaler x_alt
     = if num_eqb (arr_mean by_hand) (arr_mean by_library)
       then Returned (by_hand, by_library) else Raised AssertionError) /\
  (forall symbols acc w,
     exists k, (k <= length symbols)%nat /\
       Online.sent (snd (Online.dji_hist_loop symbols acc w))
       = Online.sent w ++ (Online.symbol_url <$> take k symbols)).
Proof.
  split; [|split].
  - reflexivity.
  - reflexivity.
  - intros symbols acc w. apply dji_hist_loop_sends_once.
Qed.

End SanityChecks.

(** ** The second spider (06_scraping.py) *)

Section FollowSpider.
Import Scraping.
Context `{F : Framework}.

(** Requests handled by [parse] add nothing to the queue: whatever the
    crawl downloads from such a queue is one of its URLs. *)
Lemma crawl_parse_only (queue : list Request) :
  forall fuel fetched out fetched' out',
    parse_only queue ->
    crawl followSpider fuel queue fetched out = Some (fetched', out') ->
    exists more, fetched' = fetched ++ more /\
                 forall u, u ∈ more -> u ∈ req_url <$> queue.
Proof.
  induction queue as [|r queue IH]; intros fuel fetched out fetched' out' Hq Hc.
  - destruct fuel; cbn in Hc; injection Hc as <- <-;
      exists []; (split; [by rewrite app_nil_r | intros u Hu; by inversion Hu]).
  - destruct fuel as [|fuel]; [done|]. cbn [crawl] in Hc.
    inversion Hq as [|r' q' Hr Hq']; subst.
    destruct (admits fetched r).
    + destruct (download (req_url r)) as [response|].
      * rewrite Hr in Hc. cbn [on_response followSpider parse] in Hc.
        rewrite app_nil_r in Hc.
        destruct (IH _ _ _ _ _ Hq' Hc) as (more & -> & Hmore).
        exists (req_url r :: more). split; [by rewrite <- (assoc_L (++))|].
        intros u Hu. rewrite fmap_cons. apply elem_of_cons.
        apply elem_of_cons in Hu as [->|Hu]; [by left | right; by apply Hmore].
      * destruct (IH _ _ _ _ _ Hq' Hc) as (more & -> & Hmore).
        exists (req_url r :: more). split; [by rewrite <- (assoc_L (++))|].
        intros u Hu. rewrite fmap_cons. apply elem_of_cons.
        apply elem_of_cons in Hu as [->|Hu]; [by left | right; by apply Hmore].
    + destruct (IH _ _ _ _ _ Hq' Hc) as (more & -> & Hmore).
      exists more. split; [done|].
      intros u Hu. rewrite fmap_cons. apply elem_of_cons. right. by apply Hmore.
Qed.

(** Such a queue is worked off in as many steps as it has requests. *)
Lemma crawl_parse_only_ends (queue : list Request) :
  forall fuel fetched out,
    parse_only queue -> (length queue <= fuel)%nat ->
    is_Some (crawl followSpider fuel queue fetched out).
Proof.
  induction queue as [|r queue IH]; intros fuel fetched out Hq Hf.
  - destruct fuel; cbn; eauto.
  - destruct fuel as [|fuel]; [cbn in Hf; lia|]. cbn [crawl].
    inversion Hq as [|r' q' Hr Hq']; subst. cbn in Hf.
    destruct (admits fetched r); [|apply IH; [done | lia]].
    destruct (download (req_url r)) as [response|]; [|apply IH; [done | lia]].
    rewrite Hr. cbn [on_response followSpider parse]. rewrite app_nil_r.
    apply IH; [done | lia].
Qed.

Lemma parse_links_parse_only (response : Response) :
  parse_only (snd (parse_links urljoin response)).
Proof.
  unfold parse_only, parse_links; cbn [snd].
  apply Forall_fmap, Forall_forall. by intros link _.
Qed.

(** C2 (as the code has it).  For the seed URL the second spider
    downloads the page, extracts every anchor href and yields one
    follow-up request per link; the follow-up is handled by [parse],
    which prints the URL and the paragraph text and yields no request.
    So the crawl ends one level below the seed: every page downloaded
    is the seed or a link of the seed page, and the crawl is over after
    at most one step per link of the seed page plus one. *)
Theorem followSpider_crawls_one_level :
  start_requests followSpider = [MkRequest seed_url ParseLinks] /\
  (forall follow response,
     parse_links follow response
     = ([Line (join (p_texts response))],
        (fun link => MkRequest (follow (url response) link) Parse)
          <$> a_hrefs response)) /\
  (forall response,
     parse response
     = ([Line (url response); Line (join (p_texts response))], [])) /\
  (forall fuel fetched out u,
     run_spider followSpider fuel = Some (fetched, out) -> u ∈ fetched ->
     u = seed_url \/
     exists response link,
       download seed_url = Some response /\ link ∈ a_hrefs response /\
       u = urljoin (url response) link) /\
  (forall fuel,
     (1 + from_option (fun r => length (a_hrefs r)) 0%nat (download seed_url)
      <= fuel)%nat ->
     is_Some (run_spider followSpider fuel)).
Proof.
  split; [reflexivity|]. split; [reflexivity|]. split; [reflexivity|]. split.
  - intros fuel fetched out u Hrun Hu. unfold run_spider in Hrun.
    cbn [start_requests followSpider fmap list_fmap] in Hrun.
    destruct fuel as [|fuel]; [done|]. cbn [crawl req_url req_callback] in Hrun.
    destruct (admits [] _).
    + destruct (download "http://www.example.com") as [response|] eqn:Hd.
      * cbn [on_response followSpider] in Hrun.
        destruct (parse_links urljoin response) as [lines new] eqn:Hpl.
        pose proof (parse_links_parse_only response) as Hq.
        rewrite Hpl in Hq; cbn [snd] in Hq.
        destruct (crawl_parse_only _ _ _ _ _ _ Hq Hrun) as (more & -> & Hmore).
        apply elem_of_app in Hu as [Hu|Hu].
        -- left. apply list_elem_of_singleton in Hu. by subst.
        -- right. apply Hmore in Hu.
           unfold parse_links in Hpl. injection Hpl as _ <-.
           rewrite <- list_fmap_compose in Hu.
           apply list_elem_of_fmap in Hu as (link & -> & Hl).
           exists response, link. by unfold seed_url.
      * destruct fuel; cbn in Hrun; injection Hrun as <- _;
          left; apply list_elem_of_singleton in Hu; by subst.
    + destruct fuel; cbn in Hrun; injection Hrun as <- _; by inversion Hu.
  - intros fuel Hf. unfold run_spider.
    cbn [start_requests followSpider fmap list_fmap].
    destruct fuel as [|fuel]; [lia|]. cbn [crawl req_url req_callback].
    unfold seed_url in Hf.
    destruct (admits [] _).
    + destruct (download "http://www.example.com") as [response|] eqn:Hd.
      * cbn [on_response followSpider from_option] in *.
        destruct (parse_links urljoin response) as [lines new] eqn:Hpl.
        pose proof (parse_links_parse_only response) as Hq.
        rewrite Hpl in Hq; cbn [snd] in Hq.
        apply crawl_parse_only_ends; [done|].
        unfold parse_links in Hpl. injection Hpl as _ <-.
        cbn [app]. rewrite length_fmap. lia.
      * destruct fuel; cbn; eauto.
    + destruct fuel; cbn; eauto.
Qed.

End FollowSpider.

Section FollowSpiderRuns.
Import Scraping.

(** On the chain of three pages the spider downloads the seed and the
    page it links to, prints their text, and stops. *)
Example followSpider_on_chain :
  run_spider (H := chain_web) followSpider 5
  = Some (["http://www.example.com"; "http://a.example"],
          [Line "seed"; Line "http://a.example"; Line "first"]).
Proof. reflexivity. Qed.

Lemma followSpider_crawls_one_level_witness :
  "http://a.example" = seed_url \/
  exists response link,
    download (Framework := chain_web) seed_url = Some response /\
    link ∈ a_hrefs response /\
    "http://a.example" = urljoin (Framework := chain_web) (url response) link.
Proof.
  apply (proj1 (proj2 (proj2 (proj2 (followSpider_crawls_one_level (F := chain_web)))))
           5%nat ["http://www.example.com"; "http://a.example"]
           [Line "seed"; Line "http://a.example"; Line "first"]
           "http://a.example").
  - reflexivity.
  - apply elem_of_cons; right. apply elem_of_cons; by left.
Defined.

(** C2 (as the spec has it) fails: on the chain of three pages the
    page [a.example] is downloaded and links to [b.example], which is
    never requested. *)
Lemma crawl_is_recursive_fails : ~ crawl_is_recursive.
Proof.
  intros Hrec.
  pose proof (Hrec chain_web 5%nat _ _ followSpider_on_chain
                "http://a.example"
                (MkResponse "http://a.example" ["http://b.example"] ["first"])
                "http://b.example") as Hb.
  cbn in Hb.
  assert (Hin : "http://b.example" ∈ ["http://www.example.com"; "http://a.example"]).
  { apply Hb; [| reflexivity |]; repeat constructor. }
  apply list_elem_of_In in Hin. cbn in Hin.
  destruct Hin as [E|[E|[]]]; discriminate E.
Qed.

End FollowSpiderRuns.

(** ** The classes (03_python_basics.py, 06_scraping.py) *)

Section ClassFacts.
Import Classes.

(** The property the constructor of [Student] sets up. *)
Lemma Student_ctor_establishes :
  establishes Student_ctor
    (fun '(u, s, g) o => uni o = u /\ subject o = s /\ grades o = g).
Proof.
  split.
  - intros [[u s] g]. by cbn.
  - exists ("Passau", "Art", [1]), (Student_init "Passau" "Art" []).
    cbn. intros (_ & _ & E). discriminate E.
Qed.

Lemma LocalResident_ctor_establishes :
  establishes LocalResident_ctor
    (fun '(u, s, g, a) o => as_student o = Student_init u s g /\ address o = a).
Proof.
  split.
  - intros [[[u s] g] a]. by cbn.
  - exists ("Passau", "Art", [1], "Innstr. 27"),
           (LocalResident_init "Passau" "Art" [1] "elsewhere").
    cbn. intros [_ E]. discriminate E.
Qed.

(** C5 (as the spec has it) fails: the scripts define classes, and the
    constructor of [Student] sets up a property of its fields. *)
Lemma no_custom_entities_fails : ~ no_custom_entities.
Proof.
  intros [_ Hno]. apply (Hno Student_ctor).
  - apply elem_of_cons; by left.
  - eexists. apply Student_ctor_establishes.
Qed.

(** C5 (as the code has it).  Dataframes, responses, figures and
    dashboard components come from the libraries, but the scripts also
    define entity types of their own: the classes [Student] (twice),
    [LocalResident] (a subclass of [Student]) and the two spiders
    (subclasses of the framework's spider).  The constructor of
    [Student] stores its three arguments in the fields [uni], [subject]
    and [grades], and [avg_grade] is the mean of the stored grades; the
    constructor of [LocalResident] builds the [Student] part through the
    parent constructor and stores [address]. *)
Theorem scripts_define_classes :
  (cls_name <$> repository_classes
   = ["Student"; "Student"; "LocalResident"; "mySpider"; "followSpider"]) /\
  (cls_base <$> repository_classes
   = [None; None; Some "Student"; Some "scrapy.Spider"; Some "scrapy.Spider"]) /\
  (forall (G : Type) (np_mean : list G -> G) (u s : string) (g : list G),
     let o := Student_init u s g in
     uni o = u /\ subject o = s /\ grades o = g /\ avg_grade np_mean o = np_mean g) /\
  (forall (G : Type) (u s : string) (g : list G) (a : string),
     let o := LocalResident_init u s g a in
     as_student o = Student_init u s g /\ address o = a) /\
  (exists P, establishes Student_ctor P) /\
  (exists P, establishes LocalResident_ctor P) /\
  Scraping.name Scraping.mySpider = "my_first" /\
  Scraping.name Scraping.followSpider = "my_second".
Proof.
  repeat split.
  - eexists. apply Student_ctor_establishes.
  - eexists. apply LocalResident_ctor_establishes.
Qed.

End ClassFacts.

(** ** What the scripts request and read (external interfaces) *)

Section Boundaries.
Import Scraping Sources.

Lemma symbol_url_host (symbol : string) :
  host_of (Online.symbol_url symbol) = "financialmodelingprep.com".
Proof. reflexivity. Qed.

(** C6 (as the spec has it) fails: the first spider requests
    [www.example.com], which is none of the three providers. *)
Lemma only_spec_boundaries_fails : ~ only_spec_boundaries.
Proof.
  intros Hall.
  assert (Hl : MkLesson "06_scraping.py"
                 [HttpGet "https://finance.yahoo.com/quote/AAPL/analysis?p=AAPL";
                  SpiderCrawl mySpider; SpiderCrawl followSpider]
               ∈ lessons []).
  { apply list_elem_of_lookup. by exists 3%nat. }
  specialize (Hall [] _ (SpiderCrawl mySpider) Hl).
  cbn [effects] in Hall.
  assert (He : SpiderCrawl mySpider ∈
               [HttpGet "https://finance.yahoo.com/quote/AAPL/analysis?p=AAPL";
                SpiderCrawl mySpider; SpiderCrawl followSpider]).
  { apply list_elem_of_lookup. by exists 1%nat. }
  specialize (Hall He). vm_compute in Hall. discriminate Hall.
Qed.

(** C6 (as the code has it).  Every request whose target the scripts
    name, and every table read over HTTP, goes to Wikipedia, the
    financial-data provider, Yahoo Finance, [www.example.com] (the seed
    of the two spiders), Dropbox or [raw.githubusercontent.com] (CSV
    files read by [read_csv]), and all six are used; the follow-up
    requests of the second spider go to the links of the page it
    downloaded; every other read is a local CSV, Excel or SQLite file. *)
Theorem requests_and_reads_stay_within_named_hosts :
  (forall dji_symbols,
     Forall (fun l => Forall (fun e => within_boundary e = true) (effects l))
            (lessons dji_symbols)) /\
  named_hosts (lessons []) = spec_hosts ++ other_hosts /\
  (forall follow response,
     req_url <$> snd (parse_links follow response)
     = follow (url response) <$> a_hrefs response).
Proof.
  split; [|split].
  - intros dji_symbols. unfold lessons.
    repeat (apply Forall_cons; split); try apply Forall_nil;
      cbn [effects]; try (vm_compute; reflexivity).
    apply Forall_fmap, Forall_forall. intros symbol _. reflexivity.
  - vm_compute. reflexivity.
  - intros follow response. unfold parse_links; cbn [snd].
    rewrite <- list_fmap_compose. reflexivity.
Qed.

End Boundaries.

(** ** What the scripts leave behind (state across lessons) *)

Section DurableState.
Import Sources.

Lemma requests_touch_no_file (f : string -> string) (l : list string) :
  ((fun s => HttpGet (f s)) <$> l) ≫= read_paths = [] /\
  ((fun s => HttpGet (f s)) <$> l) ≫= written_paths = [].
Proof. induction l as [|s l [IHr IHw]]; [done|]. cbn. by rewrite IHr, IHw. Qed.

(** The local files of every script, whatever the symbols downloaded. *)
Lemma file_views (dji_symbols : list string) :
  file_view <$> lessons dji_symbols = file_view <$> lessons [].
Proof.
  unfold lessons. cbn [fmap list_fmap]. do 2 f_equal.
  f_equal. unfold file_view, lesson_reads, lesson_writes; cbn [script effects].
  rewrite !bind_app.
  destruct (requests_touch_no_file Online.symbol_url (take 5 dji_symbols)) as [-> ->].
  reflexivity.
Qed.

Lemma run_effect_frame (who : string) (e : io)
    (st : gmap string string * list (string * string * option string)) (p : string) :
  p ∉ written_paths e -> (run_effect who e st).1 !! p = st.1 !! p.
Proof.
  destruct st as [fs observed]. cbn [run_effect fst].
  induction (written_paths e) as [|p' ps IH]; intros Hp; [done|].
  cbn [foldr]. apply not_elem_of_cons in Hp as [Hne Hp].
  rewrite lookup_insert_ne by done. by apply IH.
Qed.

Lemma run_effects_frame (who : string) (es : list io) (p : string) :
  forall st, p ∉ es ≫= written_paths ->
    (foldl (fun st e => run_effect who e st) st es).1 !! p = st.1 !! p.
Proof.
  induction es as [|e es IH]; intros st Hp; [done|].
  rewrite bind_cons in Hp. apply not_elem_of_app in Hp as [He Hes].
  cbn [foldl]. rewrite IH by done. by apply run_effect_frame.
Qed.

(** A run of the course changes only the files some script writes. *)
Lemma run_course_frame (ls : list lesson) (p : string) :
  forall st, p ∉ ls ≫= lesson_writes ->
    (run_course ls st).1 !! p = st.1 !! p.
Proof.
  unfold run_course.
  induction ls as [|l ls IH]; intros st Hp; [done|].
  rewrite bind_cons in Hp. apply not_elem_of_app in Hp as [Hl Hls].
  cbn [foldl]. rewrite IH by done. by apply run_effects_frame.
Qed.

Lemma run_effects_no_files (who : string) (es : list io) :
  forall st, es ≫= read_paths = [] -> es ≫= written_paths = [] ->
    foldl (fun st e => run_effect who e st) st es = st.
Proof.
  induction es as [|e es IH]; intros [fs observed] Hr Hw; [done|].
  rewrite bind_cons in Hr, Hw.
  apply app_eq_nil in Hr as [Hr1 Hr2]. apply app_eq_nil in Hw as [Hw1 Hw2].
  cbn [foldl]. unfold run_effect at 2. rewrite Hr1, Hw1. cbn.
  rewrite app_nil_r. by apply IH.
Qed.

Lemma all_writes (dji_symbols : list string) :
  lessons dji_symbols ≫= lesson_writes
  = ["DAX.xlsx"; "data/dax_db.sqlite"; "plotly.html"; "plotly.pdf"; "plotly.png"].
Proof.
  transitivity ((file_view <$> lessons dji_symbols) ≫= snd).
  - generalize (lessons dji_symbols). intros ls.
    induction ls as [|l ls IH]; [done|]. cbn. by rewrite <- IH.
  - rewrite file_views. vm_compute. reflexivity.
Qed.

Lemma views_disjoint_sound (ls : list lesson) :
  views_disjoint (file_view <$> ls) = true -> no_cross_lesson_reads ls.
Proof.
  intros Hv l1 l2 p H1 H2 Hne Hw Hr.
  unfold views_disjoint in Hv. rewrite forallb_forall in Hv.
  assert (Hv1 := Hv (file_view l1)
            (proj1 (list_elem_of_In _ _) (list_elem_of_fmap_2 file_view _ _ H1))).
  rewrite forallb_forall in Hv1.
  assert (Hd := Hv1 (file_view l2)
            (proj1 (list_elem_of_In _ _) (list_elem_of_fmap_2 file_view _ _ H2))).
  unfold disjoint_views, file_view in Hd.
  apply orb_prop in Hd as [He|Hd].
  - apply String.eqb_eq in He. done.
  - rewrite forallb_forall in Hd.
    specialize (Hd p (proj1 (list_elem_of_In _ _) Hw)).
    apply negb_true_iff, bool_decide_eq_false in Hd. done.
Qed.

(** C7 (as the spec has it) fails: the data lesson writes an Excel
    file, which is neither a CSV nor an SQLite file. *)
Lemma only_csv_sqlite_persist_fails : ~ only_csv_sqlite_persist.
Proof.
  intros Hall. destruct (Hall []) as [Hw _].
  assert (Hl : MkLesson "04_data.py"
                 [ReadTable (Path "data/DAX.csv"); WriteFile "DAX.xlsx";
                  SqlWrite "data/dax_db.sqlite"; SqlRead "data/dax_db.sqlite"]
               ∈ lessons []).
  { apply list_elem_of_lookup. by exists 1%nat. }
  specialize (Hw _ "DAX.xlsx" Hl).
  assert (Hp : "DAX.xlsx" ∈ ["DAX.xlsx"; "data/dax_db.sqlite"])
    by (apply elem_of_cons; by left).
  specialize (Hw Hp). vm_compute in Hw. discriminate Hw.
Qed.

(** C7 (as the code has it).  The files the scripts write are an Excel
    file, an SQLite database and three exports of a figure (HTML, PDF,
    PNG); a run of the course changes no other file.  No script reads a
    file that another script writes: on a fresh working directory the
    only file read after having been written is the SQLite database,
    read back by the script that wrote it. *)
Theorem scripts_share_no_files (dji_symbols : list string) :
  lessons dji_symbols ≫= lesson_writes
  = ["DAX.xlsx"; "data/dax_db.sqlite"; "plotly.html"; "plotly.pdf"; "plotly.png"] /\
  no_cross_lesson_reads (lessons dji_symbols) /\
  (forall fs0 p,
     p ∉ ["DAX.xlsx"; "data/dax_db.sqlite"; "plotly.html"; "plotly.pdf"; "plotly.png"] ->
     (run_course (lessons dji_symbols) (fs0, [])).1 !! p = fs0 !! p) /\
  (run_course (lessons dji_symbols) (∅, [])).2
  = [("04_data.py", "data/DAX.csv", None);
     ("04_data.py", "data/dax_db.sqlite", Some "04_data.py");
     ("08_interactive_plots.py", "data/dax.xlsx", None);
     ("08_interactive_plots.py", "data/BankChurners.csv", None);
     ("08_interactive_plots_temp.py", "/users/jan/data/dax.xlsx", None);
     ("08_interactive_plots_temp.py", "/users/jan/data/BankChurners.csv", None);
     ("09_sklearn.py", "data/insurance.csv", None);
     ("10_dash_II.py", "data/dji_sector_prices.csv", None);
     ("_10_dash_II_alt.py", "data/dji_100_days.csv", None)].
Proof.
  split; [apply all_writes|]. split; [|split].
  - apply views_disjoint_sound. rewrite file_views. vm_compute. reflexivity.
  - intros fs0 p Hp. rewrite <- (all_writes dji_symbols) in Hp.
    by rewrite run_course_frame.
  - unfold run_course, lessons. cbn [foldl].
    unfold run_lesson at 12. cbn [script effects].
    rewrite (run_effects_no_files "05_online.py").
    + vm_compute. reflexivity.
    + rewrite bind_app.
      by destruct (requests_touch_no_file Online.symbol_url (take 5 dji_symbols)) as [-> _].
    + rewrite bind_app.
      by destruct (requests_touch_no_file Online.symbol_url (take 5 dji_symbols)) as [_ ->].
Qed.

Lemma scripts_share_no_files_witness :
  (run_course (lessons ["AAPL"]) ({["data/DAX.csv" := "shipped"]}, [])).1
    !! "data/DAX.csv"
  = Some "shipped".
Proof.
  rewrite (proj1 (proj2 (proj2 (scripts_share_no_files ["AAPL"])))
             {["data/DAX.csv" := "shipped"]} "data/DAX.csv").
  - reflexivity.
  - intros Hin. apply list_elem_of_In in Hin. cbn in Hin.
    destruct Hin as [E|[E|[E|[E|[E|[]]]]]]; discriminate E.
Defined.

End DurableState.

(** ** Functions whose result depends only on the arguments *)

Section SelfContained.
Import Basics Functions.
Context {Float : Type} {float_div : TrueDiv Float}.
Context {Series : Type} {series_ops : FinancialStats.SeriesOps Series}.

Lemma my_mean_loop_spec (l : list Z) :
  forall sum_ length_count,
    foldl (fun '(sum_, length_count) el => (sum_ + el, length_count + 1))
          (sum_, length_count) l
    = (sum_ + foldr Z.add 0 l, length_count + Z.of_nat (length l)).
Proof.
  induction l as [|el l IH]; intros sum_ length_count; cbn [foldl foldr length].
  - f_equal; lia.
  - rewrite IH. f_equal; lia.
Qed.

(** The loop hands the sum of the elements and their number to [/]. *)
Lemma my_mean_spec (l : list Z) :
  my_mean l = int_truediv (foldr Z.add 0 l) (Z.of_nat (length l)).
Proof. unfold my_mean, my_mean_loop. by rewrite my_mean_loop_spec. Qed.


(** The callback of the dashboard lesson reads the module-level frame:
    its result changes with the file behind it. *)
Lemma set_options_company_dd_reads_globals :
  ~ args_determined fn_set_options_company_dd.
Proof.
  intros H.
  specialize (H (MkGlobals 0 [("Technology", "AAPL")]) (MkGlobals 0 []) "Technology").
  vm_compute in H. discriminate H.
Qed.

(** The recursive function depends on the recursion limit as well. *)
Lemma my_factorial_reads_recursion_limit :
  ~ args_determined fn_my_factorial.
Proof.
  intros H. specialize (H (MkGlobals 3 []) (MkGlobals 9 []) 5).
  vm_compute in H. discriminate H.
Qed.


End SelfContained.

Section SelfContainedRuns.
Import Basics Functions.



End SelfContainedRuns.

(** * Further properties of the scripts *)

(** ** The mean (03_python_basics.py) *)

Section MeanFacts.
Import Basics.
Context {Float : Type} {float_div : TrueDiv Float}.

(** X2.  [my_mean] raises ZeroDivisionError exactly on the empty
    list.  On a non-empty list of integers it returns what the
    interpreter's division gives for the exact sum of the elements and
    their number (a float, or OverflowError when the quotient is too
    large for one). *)
Theorem my_mean_divides_sum_by_length (l : list Z) :
  my_mean l = int_truediv (foldr Z.add 0 l) (Z.of_nat (length l)) /\
  (my_mean l = inr ZeroDivisionError <-> l = []).
Proof.
  split; [apply my_mean_spec|].
  rewrite my_mean_spec, int_truediv_zero.
  destruct l as [|x l]; cbn [length]; split; (done || lia).
Qed.

End MeanFacts.

Section MeanRuns.
Import Basics.

Lemma my_mean_divides_sum_by_length_witness :
  my_mean (H := fraction_TrueDiv) [] = inr ZeroDivisionError.
Proof.
  apply (proj2 (proj2 (my_mean_divides_sum_by_length
                         (float_div := fraction_TrueDiv) []))).
  reflexivity.
Defined.

End MeanRuns.

(** ** The generator, used as the cells use it (03_python_basics.py) *)

Section GeneratorFacts.
Import Basics BasicsMore.

Lemma next_times_from (n : Z) (k : nat) :
  forall (j : Z) (g : generator),
    next g = while_head n j -> j + Z.of_nat k <= n ->
    exists g', next_times k g = (Some (seqZ j (Z.of_nat k)), g') /\
               next g' = while_head n (j + Z.of_nat k).
Proof.
  induction k as [|k IH]; intros j g Hg Hk.
  - exists g. split; [reflexivity|]. by rewrite Z.add_0_r.
  - cbn [next_times]. rewrite Hg, while_head_lt by lia.
    destruct (IH (j + 1) (Generator n (GenSuspended j))) as (g' & -> & Hg');
      [reflexivity | lia |].
    exists g'. split.
    + rewrite (seqZ_cons j (Z.of_nat (S k))) by lia.
      replace (Z.succ j) with (j + 1) by lia.
      replace (Z.pred (Z.of_nat (S k))) with (Z.of_nat k) by lia.
      reflexivity.
    + rewrite Hg'. f_equal. lia.
Qed.

(** X3.  Values taken from the generator with [next] are gone for a
    later loop: after [k <= n] calls of [next] on [yield_list(n)], which
    give [0, ..., k-1], a [for] loop over the same generator gives
    exactly the rest [k, ..., n-1]; together they are [return_list(n)]. *)
Theorem next_then_loop_splits_range (n k : nat) :
  (k <= n)%nat ->
  exists g',
    next_times k (yield_list (Z.of_nat n)) = (Some (seqZ 0 (Z.of_nat k)), g') /\
    (forall fuel, (n - k < fuel)%nat ->
       drain fuel g' = Some (seqZ (Z.of_nat k) (Z.of_nat (n - k)))) /\
    seqZ 0 (Z.of_nat k) ++ seqZ (Z.of_nat k) (Z.of_nat (n - k))
    = return_list (Z.of_nat n).
Proof.
  intros Hk.
  destruct (next_times_from (Z.of_nat n) k 0 (yield_list (Z.of_nat n)))
    as (g' & Ht & Hg'); [reflexivity | lia |].
  exists g'. split; [exact Ht|]. split.
  - intros fuel Hf. apply drain_from with (n := Z.of_nat n); [done | lia | done].
  - rewrite return_list_range. unfold py_range.
    replace (seqZ 0 (Z.of_nat n))
      with (seqZ 0 (Z.of_nat k + Z.of_nat (n - k))) by (f_equal; lia).
    by rewrite seqZ_app by lia.
Qed.

(** Cells In[36]-In[38]: three values taken, the loop prints 3 and 4. *)
Lemma next_then_loop_splits_range_witness :
  exists g',
    next_times 3 (yield_list 5) = (Some [0; 1; 2], g') /\
    (forall fuel, (2 < fuel)%nat -> drain fuel g' = Some [3; 4]) /\
    [0; 1; 2] ++ [3; 4] = return_list 5.
Proof. apply (next_then_loop_splits_range 5 3). lia. Defined.

Lemma next_done (g : generator) :
  gen_pc_of g = GenDone -> next g = (None, g).
Proof. intros H. unfold next. by rewrite H. Qed.

Lemma next_stop_done (g g' : generator) :
  next g = (None, g') -> gen_pc_of g' = GenDone.
Proof.
  unfold next, while_head. destruct g as [n [|i|]]; cbn.
  - destruct (0 <? n); [done|]. by intros [= <-].
  - destruct (i + 1 <? n); [done|]. by intros [= <-].
  - by intros [= <-].
Qed.

Lemma exhaust_done (fuel : nat) :
  forall g vs g', exhaust fuel g = Some (vs, g') ->
    gen_pc_of g' = GenDone /\ yields g vs.
Proof.
  induction fuel as [|fuel IH]; intros g vs g' He; [done|].
  cbn [exhaust] in He. destruct (next g) as [[v|] g1] eqn:Hn.
  - destruct (exhaust fuel g1) as [[vs1 g2]|] eqn:He1; [|done].
    cbn in He. injection He as <- <-.
    destruct (IH _ _ _ He1) as [Hd Hy].
    split; [done|]. by apply yields_value with (g' := g1).
  - injection He as <- <-. split; [by apply next_stop_done in Hn|].
    by apply yields_stop with (g' := g1).
Qed.

(** X4.  A generator can be iterated once.  Whatever state it is in,
    once a loop has run it to its end it is depleted: [next] raises
    StopIteration and leaves it as it is, and a second loop over it gives
    nothing.  Asking [yield_list(n)] for [n + 1] values with [next]
    raises StopIteration, and for [n <= 0] the generator is depleted
    from the start, as [return_list(n)] is empty. *)
Theorem generator_is_single_use :
  (forall fuel g vs g',
     exhaust fuel g = Some (vs, g') ->
     yields g vs /\ next g' = (None, g') /\
     forall fuel', exhaust (S fuel') g' = Some ([], g')) /\
  (forall n : nat, fst (next_times (S n) (yield_list (Z.of_nat n))) = None) /\
  (forall n : Z, n <= 0 ->
     return_list n = [] /\ exhaust 1 (yield_list n) = Some ([], Generator n GenDone)).
Proof.
  split; [|split].
  - intros fuel g vs g' He. destruct (exhaust_done _ _ _ _ He) as [Hd Hy].
    split; [done|]. split; [by apply next_done|].
    intros fuel'. cbn [exhaust]. by rewrite next_done.
  - intros n.
    destruct (next_times_from (Z.of_nat n) n 0 (yield_list (Z.of_nat n)))
      as (g' & Ht & Hg'); [reflexivity | lia |].
    replace (S n) with (n + 1)%nat by lia.
    assert (Hsplit : forall a b g,
              next_times (a + b) g
              = match next_times a g with
                | (Some vs, g1) =>
                    let '(ws, g2) := next_times b g1 in ((fun ws => vs ++ ws) <$> ws, g2)
                | (None, g1) => (None, g1)
                end).
    { induction a as [|a IHa]; intros b g.
      - cbn. by destruct (next_times b g) as [[ws|] g2].
      - cbn [Nat.add next_times]. destruct (next g) as [[v|] g1]; [|done].
        rewrite IHa. destruct (next_times a g1) as [[vs|] g2]; cbn; [|done].
        destruct (next_times b g2) as [[ws|] g3]; cbn; done. }
    rewrite Hsplit, Ht. cbn [next_times]. rewrite Hg', while_head_ge by lia.
    reflexivity.
  - intros n Hn. split.
    + rewrite return_list_range. unfold py_range, seqZ.
      by replace (Z.to_nat n) with 0%nat by lia.
    + cbn [exhaust yield_list next gen_pc_of gen_n]. by rewrite while_head_ge by lia.
Qed.

Lemma generator_is_single_use_witness :
  yields (yield_list 2) [0; 1] /\
  next (Generator 2 GenDone) = (None, Generator 2 GenDone) /\
  (forall fuel', exhaust (S fuel') (Generator 2 GenDone)
                 = Some ([], Generator 2 GenDone)).
Proof.
  apply (proj1 generator_is_single_use 3%nat (yield_list 2) [0; 1]
           (Generator 2 GenDone)).
  reflexivity.
Defined.

End GeneratorFacts.

(** ** The dict comprehension (03_python_basics.py) *)

Section DictFacts.
Import BasicsMore.




End DictFacts.

(** ** The table built from the analysis page (06_scraping.py) *)

Section TableFacts.
Import ScrapingTable.

Lemma mod5_offset (m j : nat) : (j < 5)%nat -> ((j + 5 * m) mod 5 = j)%nat.
Proof.
  intros Hj. rewrite (Nat.mul_comm 5 m), Nat.Div0.mod_add.
  by apply Nat.mod_small.
Qed.

Lemma four_cells {A} (cells : list A) :
  length cells = 4%nat -> exists a b c d, cells = [a; b; c; d].
Proof.
  destruct cells as [|a [|b [|c [|d [|e cells]]]]]; try done. eauto.
Qed.

(** Every fifth entry is a label, the entries between are the cells. *)
Lemma labels_data_from (rows : list (string * list string)) :
  Forall (fun row => length row.2 = 4%nat) rows ->
  forall m,
    snd <$> filter (fun p => (p.1 mod 5 = 0)%nat)
                   (enumerate_from (5 * m) (table_text rows)) = fst <$> rows /\
    snd <$> filter (fun p => (p.1 mod 5 <> 0)%nat)
                   (enumerate_from (5 * m) (table_text rows)) = rows ≫= snd.
Proof.
  induction 1 as [|[label cells] rows Hc _ IH]; intros m; [done|].
  destruct (four_cells cells Hc) as (a & b & c & d & ->).
  unfold table_text. rewrite bind_cons. fold (table_text rows).
  cbn [fst snd app enumerate_from].
  replace (S (S (S (S (S (5 * m)))))) with (5 * S m)%nat by lia.
  destruct (IH (S m)) as [IHl IHd].
  assert (H0 : ((5 * m) mod 5 = 0)%nat) by (apply (mod5_offset m 0); lia).
  assert (H1 : (S (5 * m) mod 5 = 1)%nat) by (apply (mod5_offset m 1); lia).
  assert (H2 : (S (S (5 * m)) mod 5 = 2)%nat) by (apply (mod5_offset m 2); lia).
  assert (H3 : (S (S (S (5 * m))) mod 5 = 3)%nat) by (apply (mod5_offset m 3); lia).
  assert (H4 : (S (S (S (S (5 * m)))) mod 5 = 4)%nat) by (apply (mod5_offset m 4); lia).
  split.
  - rewrite filter_cons_True by done.
    rewrite !filter_cons_False by (cbn [fst]; lia).
    rewrite fmap_cons, IHl. reflexivity.
  - rewrite filter_cons_False by (cbn [fst]; lia).
    rewrite !filter_cons_True by (cbn [fst]; lia).
    rewrite bind_cons, !fmap_cons, IHd. reflexivity.
Qed.

Lemma table_dict_prefix (labels data : list string) (n : nat) :
  NoDup labels -> (n <= length labels)%nat ->
  forall x label, labels !! x = Some label ->
    foldl (table_dict_entry labels data) ∅ (seq 0 n) !! label
    = if decide (x < n)%nat then Some (slice data x (x + 4)) else None.
Proof.
  intros Hnd. induction n as [|n IH]; intros Hn x label Hx.
  - cbn. rewrite lookup_empty. by destruct (decide (x < 0)%nat); [lia|].
  - rewrite seq_S, foldl_app. cbn [foldl Nat.add]. unfold table_dict_entry at 1.
    destruct (labels !! n) as [label'|] eqn:Hl.
    + destruct (decide (x = n)) as [->|Hne].
      * rewrite Hx in Hl. injection Hl as <-.
        rewrite lookup_insert_eq.
        change (fun el : string => el) with (@id string). rewrite list_fmap_id.
        by destruct (decide (n < S n)%nat); [|lia].
      * assert (Hll : label' <> label).
        { intros ->. apply Hne. by apply (NoDup_lookup labels x n label). }
        rewrite lookup_insert_ne by done.
        rewrite (IH ltac:(lia) x label Hx).
        destruct (decide (x < n)%nat), (decide (x < S n)%nat); done || lia.
    + apply lookup_ge_None in Hl. lia.
Qed.

(** X6.  On a table of rows of a label and four cells, the first list
    comprehension gives the labels and the second the cells in reading
    order.  With distinct labels, the dict holds for the label of row
    [x] the slice [data[x:x+4]], the four cells that start at position
    [x] of all cells (not at [4x]): the first label gets its own cells,
    the second the last three cells of the first row and then its own
    first cell. *)
Theorem table_dict_rows_overlap (rows : list (string * list string)) :
  Forall (fun row => length row.2 = 4%nat) rows ->
  NoDup (fst <$> rows) ->
  let table_body := table_text rows in
  labels table_body = fst <$> rows /\
  data table_body = rows ≫= snd /\
  (forall x row, rows !! x = Some row ->
     table_dict (labels table_body) (data table_body) !! row.1
     = Some (slice (rows ≫= snd) x (x + 4))) /\
  (forall row rest, rows = row :: rest ->
     table_dict (labels table_body) (data table_body) !! row.1 = Some row.2) /\
  (forall row0 row1 rest, rows = row0 :: row1 :: rest ->
     table_dict (labels table_body) (data table_body) !! row1.1
     = Some (drop 1 row0.2 ++ take 1 row1.2)).
Proof.
  intros Hc Hnd table_body.
  destruct (labels_data_from rows Hc 0) as [Hl Hd].
  change (enumerate_from (5 * 0)) with (@enumerate string) in Hl, Hd.
  fold table_body in Hl, Hd. fold (labels table_body) in Hl.
  fold (data table_body) in Hd.
  assert (Hrow : forall x row, rows !! x = Some row ->
            table_dict (labels table_body) (data table_body) !! row.1
            = Some (slice (rows ≫= snd) x (x + 4))).
  { intros x row Hx. rewrite Hl, Hd. unfold table_dict.
    rewrite (table_dict_prefix _ _ _ Hnd (Nat.le_refl _) x row.1)
      by (by rewrite list_lookup_fmap, Hx).
    apply lookup_lt_Some in Hx. rewrite length_fmap.
    by destruct (decide (x < length rows)%nat); [|lia]. }
  split; [done|]. split; [done|]. split; [done|]. split.
  - intros row rest ->. rewrite (Hrow 0%nat row) by done.
    apply Forall_cons in Hc as [Hc0 _].
    destruct (four_cells _ Hc0) as (a & b & c & d & E).
    rewrite bind_cons, E. reflexivity.
  - intros row0 row1 rest ->. rewrite (Hrow 1%nat row1) by done.
    apply Forall_cons in Hc as [Hc0 Hc]. apply Forall_cons in Hc as [Hc1 _].
    destruct (four_cells _ Hc0) as (a & b & c & d & E0).
    destruct (four_cells _ Hc1) as (a' & b' & c' & d' & E1).
    rewrite !bind_cons, E0, E1. reflexivity.
Qed.

Lemma table_dict_rows_overlap_witness :
  let rows := [("Avg", ["1"; "2"; "3"; "4"]); ("Low", ["5"; "6"; "7"; "8"])] in
  table_dict (labels (table_text rows)) (data (table_text rows)) !! "Low"
  = Some ["2"; "3"; "4"; "5"].
Proof.
  intros rows.
  assert (Hc : Forall (fun row : string * list string => length row.2 = 4%nat) rows)
    by repeat constructor.
  assert (Hnd : NoDup (fst <$> rows)).
  { cbn. apply NoDup_cons. split; [|apply NoDup_singleton].
    intros Hin. apply list_elem_of_singleton in Hin. discriminate Hin. }
  apply (proj2 (proj2 (proj2 (proj2 (table_dict_rows_overlap rows Hc Hnd))))
           ("Avg", ["1"; "2"; "3"; "4"]) ("Low", ["5"; "6"; "7"; "8"]) []).
  reflexivity.
Defined.

End TableFacts.

Section CallbackExample.
Import ScrapingTable.

(** Cell In[28]: the string, then what the callback prints for it. *)
Example enter_string_onomatopoeia :
  enter_string "onomatopoeia" print_len = ["onomatopoeia"; "12"].
Proof. reflexivity. Qed.

End CallbackExample.

(** ** The spiders at work (06_scraping.py) *)

Section SpiderFacts.
Import Scraping ScrapingMore.
Context `{F : Framework}.

(** X7.  The first spider never follows a link: whatever the seed page
    contains, a crawl of at least one step downloads the seed page only
    (if the scheduler admits it) and prints the list of its paragraph
    texts (if the download succeeds); it requests nothing else. *)
Theorem mySpider_requests_seed_only (fuel : nat) :
  (1 <= fuel)%nat ->
  run_spider mySpider fuel
  = Some (if admits [] (MkRequest seed_url Parse)
          then ([seed_url],
                match download seed_url with
                | Some response => [ListRepr (p_texts response)]
                | None => []
                end)
          else ([], [])).
Proof.
  intros Hf. destruct fuel as [|fuel]; [lia|].
  unfold run_spider. cbn [start_requests mySpider fmap list_fmap crawl req_url
                          req_callback].
  change "http://www.example.com" with seed_url.
  destruct (admits [] (MkRequest seed_url Parse)).
  - destruct (download seed_url) as [response|];
      cbn [on_response mySpider_parse app]; by destruct fuel.
  - by destruct fuel.
Qed.

(** The crawl loop of the second spider's theorems is the general one
    with the first-in-first-out discipline. *)
Lemma crawl_first_in_first_out (spider : Spider) (fuel : nat) :
  forall queue fetched out,
    crawl spider fuel queue fetched out
    = crawl_with first_in_first_out spider fuel queue fetched out.
Proof.
  induction fuel as [|fuel IH]; intros queue fetched out;
    destruct queue as [|r queue]; cbn [crawl crawl_with]; try done.
  destruct (admits fetched r); [|apply IH].
  destruct (download (req_url r)) as [response|]; [|apply IH].
  destruct (on_response spider urljoin (req_callback r) response). apply IH.
Qed.

Section QueueDiscipline.
Variable schedule : list Request -> list Request -> list Request.
Hypothesis schedule_keeps :
  forall pending new, schedule pending new ≡ₚ pending ++ new.
Hypothesis admits_fresh :
  forall seen r, req_url r ∉ seen -> admits seen r = true.

(** A queue of [parse] requests for distinct pages not downloaded yet
    is worked off completely, in the order the scheduler picks, two
    lines per page that loads. *)
Lemma crawl_with_parse_only (n : nat) :
  forall queue fuel fetched out,
    length queue = n -> parse_only queue -> NoDup (req_url <$> queue) ->
    (forall u, u ∈ req_url <$> queue -> u ∉ fetched) ->
    (n <= fuel)%nat ->
    exists order,
      order ≡ₚ req_url <$> queue /\
      crawl_with schedule followSpider fuel queue fetched out
      = Some (fetched ++ order, out ++ (order ≫= page_lines)).
Proof.
  induction n as [|n IH]; intros queue fuel fetched out Hlen Hq Hnd Hfresh Hf.
  - destruct queue; [|done]. exists []. split; [done|].
    destruct fuel; cbn; by rewrite !app_nil_r.
  - destruct queue as [|r queue]; [done|]. injection Hlen as Hlen.
    destruct fuel as [|fuel]; [lia|]. cbn [crawl_with].
    inversion Hq as [|r' q' Hr Hq']; subst.
    rewrite fmap_cons in Hnd, Hfresh. apply NoDup_cons in Hnd as [Hr_new Hnd].
    rewrite admits_fresh by (apply Hfresh; by left).
    assert (Hfresh' : forall u, u ∈ req_url <$> queue -> u ∉ fetched ++ [req_url r]).
    { intros u Hu Hin. apply elem_of_app in Hin as [Hin|Hin].
      - by apply (Hfresh u); [right|].
      - apply list_elem_of_singleton in Hin. by subst. }
    destruct (download (req_url r)) as [response|] eqn:Hd.
    + rewrite Hr. cbn [on_response followSpider parse].
      assert (Hp : schedule queue [] ≡ₚ queue).
      { rewrite schedule_keeps. by rewrite app_nil_r. }
      destruct (IH (schedule queue []) fuel (fetched ++ [req_url r])
                   (out ++ [Line (url response); Line (join (p_texts response))]))
        as (order & Ho & ->).
      * by rewrite Hp.
      * unfold parse_only. by rewrite Hp.
      * by rewrite Hp.
      * intros u Hu. apply Hfresh'. by rewrite <- Hp.
      * lia.
      * exists (req_url r :: order). split; [by rewrite Ho, Hp|].
        rewrite bind_cons. unfold page_lines at 2. rewrite Hd.
        by rewrite <- !(assoc_L (++)).
    + destruct (IH queue fuel (fetched ++ [req_url r]) out)
        as (order & Ho & ->); [done..|lia|].
      exists (req_url r :: order). split; [by rewrite Ho|].
      rewrite bind_cons. unfold page_lines at 2. rewrite Hd.
      by rewrite <- !(assoc_L (++)).
Qed.

(** X8.  Whatever the order in which the scheduler hands out pending
    requests (first in first out, or last in first out as in scrapy), if
    it admits every page not downloaded before and the links of the seed
    page lead to distinct pages other than the seed, then the second
    spider downloads the seed first and then every linked page once, and
    prints the text of the seed page followed, page by page in the order
    of the downloads, by the URL and the text of every linked page that
    loads.  Pages linked from the linked pages are not downloaded. *)
Theorem followSpider_prints_seed_then_links (response : Response) (fuel : nat) :
  download seed_url = Some response ->
  NoDup (seed_url :: (urljoin (url response) <$> a_hrefs response)) ->
  (length (a_hrefs response) < fuel)%nat ->
  exists order,
    order ≡ₚ urljoin (url response) <$> a_hrefs response /\
    run_spider_with schedule followSpider fuel
    = Some (seed_url :: order,
            Line (join (p_texts response)) :: (order ≫= page_lines)).
Proof.
  intros Hd Hnd Hf. apply NoDup_cons in Hnd as [Hseed Hnd].
  destruct fuel as [|fuel]; [lia|].
  unfold run_spider_with. cbn [start_requests followSpider fmap list_fmap].
  change "http://www.example.com" with seed_url.
  assert (Hq0 : schedule [] [MkRequest seed_url ParseLinks]
                = [MkRequest seed_url ParseLinks]).
  { apply Permutation_singleton_r. by rewrite schedule_keeps. }
  rewrite Hq0. cbn [crawl_with req_url req_callback].
  rewrite admits_fresh by (intros Hin; by inversion Hin). rewrite Hd.
  cbn [on_response followSpider parse_links app].
  set (new := (fun link => MkRequest (urljoin (url response) link) Parse)
                <$> a_hrefs response).
  assert (Hnew : req_url <$> new = urljoin (url response) <$> a_hrefs response).
  { unfold new. by rewrite <- list_fmap_compose. }
  assert (Hp : schedule [] new ≡ₚ new) by (by rewrite schedule_keeps).
  destruct (crawl_with_parse_only (length (a_hrefs response)) (schedule [] new)
              fuel [seed_url] [Line (join (p_texts response))])
    as (order & Ho & ->).
  - rewrite Hp. unfold new. by rewrite length_fmap.
  - unfold parse_only. rewrite Hp. apply (parse_links_parse_only response).
  - by rewrite Hp, Hnew.
  - intros u Hu Hin. rewrite Hp, Hnew in Hu.
    apply list_elem_of_singleton in Hin. by subst.
  - lia.
  - exists order. split; [by rewrite Ho, Hp, Hnew | done].
Qed.

End QueueDiscipline.

End SpiderFacts.

Section SpiderRuns.
Import Scraping ScrapingMore.

Lemma mySpider_requests_seed_only_witness :
  run_spider (H := chain_web) mySpider 1
  = Some (["http://www.example.com"], [ListRepr ["seed"]]).
Proof. apply (mySpider_requests_seed_only (F := chain_web) 1). lia. Defined.

(** On the page with two links, scrapy's queue discipline downloads
    the second link before the first. *)
Example followSpider_last_in_first_out :
  run_spider_with (H := fork_web) last_in_first_out followSpider 3
  = Some (["http://www.example.com"; "http://b.example"; "http://a.example"],
          [Line "seed"; Line "http://b.example"; Line "second";
           Line "http://a.example"; Line "first"]).
Proof. reflexivity. Qed.

Lemma last_in_first_out_keeps (pending new : list Request) :
  last_in_first_out pending new ≡ₚ pending ++ new.
Proof.
  unfold last_in_first_out. rewrite reverse_Permutation.
  apply Permutation_app_comm.
Qed.

Lemma followSpider_prints_seed_then_links_witness :
  exists order,
    order ≡ₚ ["http://a.example"; "http://b.example"] /\
    run_spider_with (H := fork_web) last_in_first_out followSpider 3
    = Some ("http://www.example.com" :: order,
            Line "seed" :: (order ≫= page_lines (H := fork_web))).
Proof.
  apply (followSpider_prints_seed_then_links (F := fork_web)
           last_in_first_out last_in_first_out_keeps
           ltac:(intros seen r Hr; cbn; by rewrite bool_decide_eq_false_2)
           (MkResponse "http://www.example.com"
                       ["http://a.example"; "http://b.example"] ["seed"]) 3).
  - reflexivity.
  - cbn. repeat (apply NoDup_cons; split); try apply NoDup_nil_2;
      intros Hin; apply list_elem_of_In in Hin; cbn in Hin;
      intuition discriminate.
  - cbn. lia.
Defined.

End SpiderRuns.

(** ** The download loop on other networks (05_online.py) *)

Section DownloadLoop.
Import Py Online.

Lemma dji_hist_loop_completes (symbols : list string) :
  forall (oks : list Response) (frames : list (list Row))
         (acc : list (Row * string)) (w : World) (rest : list Response),
    length symbols = length oks ->
    Forall2 good_response oks frames ->
    pending w = oks ++ rest ->
    dji_hist_loop symbols acc w
    = (Returned (acc ++ tagged_rows symbols frames),
       MkWorld rest (sent w ++ (symbol_url <$> symbols)) (stdout w)).
Proof.
  induction symbols as [|s ss IH];
    intros oks frames acc [p sn out] rest Hlen Hok Hp;
    cbn [pending sent stdout] in *; subst p.
  - destruct oks; [|done]. inversion Hok; subst.
    cbn. by rewrite !app_nil_r.
  - destruct oks as [|r oks]; [done|].
    inversion Hok as [|r' f oks' fs [Hst Hh] Hrest]; subst.
    cbn [app dji_hist_loop]. rewrite re_get_answered, Hst, Hh.
    cbn [Z.eqb negb Pos.eqb].
    rewrite (IH oks fs _ _ rest); cbn [pending sent stdout];
      [|by injection Hlen|done|done].
    unfold tagged_rows. cbn [zip_with concat fmap list_fmap].
    by rewrite <- !(assoc_L (++)).
Qed.

(** X9.  When every one of the first five symbols is answered with
    status 200 and a body that has the key [historical], the cell
    requests each of them once, in order, prints nothing, and returns
    the frames of all of them, one after the other, every row tagged
    with its symbol; symbols after the fifth are not requested. *)
Theorem dji_hist_cell_downloads_first_five
    (dji_symbols : list string) (oks : list Response)
    (frames : list (list Row)) (rest : list Response) (w : World) :
  length (take 5 dji_symbols) = length oks ->
  Forall2 good_response oks frames ->
  pending w = oks ++ rest ->
  dji_hist_cell dji_symbols w
  = (Returned (tagged_rows (take 5 dji_symbols) frames),
     MkWorld rest (sent w ++ (symbol_url <$> take 5 dji_symbols)) (stdout w)).
Proof.
  intros Hlen Hok Hp. unfold dji_hist_cell.
  by rewrite (dji_hist_loop_completes _ oks frames [] w rest).
Qed.

Lemma dji_hist_cell_downloads_first_five_witness :
  dji_hist_cell ["A"; "B"; "C"; "D"; "E"; "F"]
    (MkWorld [answer 200 [price_row 1]; answer 200 []; answer 200 [price_row 3];
              answer 200 []; answer 200 [price_row 5]; answer 200 [price_row 6]]
             [] [])
  = (Returned [(price_row 1, "A"); (price_row 3, "C"); (price_row 5, "E")],
     MkWorld [answer 200 [price_row 6]]
             (symbol_url <$> ["A"; "B"; "C"; "D"; "E"]) []).
Proof.
  apply (dji_hist_cell_downloads_first_five
           ["A"; "B"; "C"; "D"; "E"; "F"]
           [answer 200 [price_row 1]; answer 200 []; answer 200 [price_row 3];
            answer 200 []; answer 200 [price_row 5]]
           [[price_row 1]; []; [price_row 3]; []; [price_row 5]]
           [answer 200 [price_row 6]]).
  - reflexivity.
  - repeat constructor.
  - reflexivity.
Defined.

Lemma dji_hist_loop_invariant (symbols : list string) :
  forall (acc : list (Row * string)) (w : World),
    (stdout (snd (dji_hist_loop symbols acc w)) = stdout w \/
     stdout (snd (dji_hist_loop symbols acc w)) = stdout w ++ ["Error! Aborted"]) /\
    match fst (dji_hist_loop symbols acc w) with
    | Returned frame =>
        exists more, frame = acc ++ more /\ Forall (fun p => p.2 ∈ symbols) more
    | Raised _ => True
    end.
Proof.
  induction symbols as [|s ss IH]; intros acc [p sn out].
  - cbn. split; [by left|]. exists []. by rewrite app_nil_r.
  - cbn [dji_hist_loop]. unfold re_get; cbn [pending sent stdout].
    destruct p as [|r rs]; [cbn; split; [by left | done]|].
    destruct (negb (status_code r =? 200)).
    + cbn. split; [by right|]. exists []. by rewrite app_nil_r.
    + destruct (historical r) as [f|e]; [|cbn; split; [by left | done]].
      destruct (IH (acc ++ ((fun row => (row, s)) <$> f))
                   (MkWorld rs (sn ++ [symbol_url s]) out)) as [Hout Hres].
      split; [exact Hout|].
      destruct (fst (dji_hist_loop ss _ _)) as [frame|]; [|done].
      destruct Hres as (more & -> & Hmore).
      exists (((fun row => (row, s)) <$> f) ++ more).
      split; [by rewrite (assoc_L (++))|].
      apply Forall_app. split.
      * apply Forall_fmap, Forall_forall. intros row _. cbn. by left.
      * eapply Forall_impl; [exact Hmore|]. intros [row s'] Hs. cbn in *. by right.
Qed.

(** X10.  Whatever the network answers, the download cell sends at
    most five requests, for an initial segment of the symbols and each
    once; it prints nothing or the one line [Error! Aborted]; and every
    row of a frame it returns carries one of the first five symbols. *)
Theorem dji_hist_cell_is_bounded (dji_symbols : list string) (w : World) :
  (exists k, (k <= 5)%nat /\
     sent (snd (dji_hist_cell dji_symbols w))
     = sent w ++ (symbol_url <$> take k dji_symbols)) /\
  (stdout (snd (dji_hist_cell dji_symbols w)) = stdout w \/
   stdout (snd (dji_hist_cell dji_symbols w)) = stdout w ++ ["Error! Aborted"]) /\
  match fst (dji_hist_cell dji_symbols w) with
  | Returned frame => Forall (fun p => p.2 ∈ take 5 dji_symbols) frame
  | Raised _ => True
  end.
Proof.
  unfold dji_hist_cell. split; [|split].
  - destruct (dji_hist_loop_sends_once (take 5 dji_symbols) [] w) as (k & Hk & ->).
    rewrite length_take in Hk.
    exists k. split; [lia|]. rewrite take_take. by rewrite Nat.min_l by lia.
  - apply dji_hist_loop_invariant.
  - pose proof (proj2 (dji_hist_loop_invariant (take 5 dji_symbols) [] w)) as H.
    destruct (fst (dji_hist_loop _ _ _)) as [frame|]; [|done].
    by destruct H as (more & -> & Hmore).
Qed.

Lemma dji_hist_loop_raises (symbols_ok : list string) :
  forall (oks : list Response) (frames : list (list Row))
         (acc : list (Row * string)) (w : World)
         (symbol : string) (symbols_rest : list string)
         (bad : Response) (rest : list Response) (e : exn),
    length symbols_ok = length oks ->
    Forall2 good_response oks frames ->
    status_code bad = 200 -> historical bad = Raised e ->
    pending w = oks ++ bad :: rest ->
    dji_hist_loop (symbols_ok ++ symbol :: symbols_rest) acc w
    = (Raised e,
       MkWorld rest (sent w ++ (symbol_url <$> symbols_ok ++ [symbol])) (stdout w)).
Proof.
  induction symbols_ok as [|s ss IH];
    intros oks frames acc [p sn out] symbol symbols_rest bad rest e
           Hlen Hok Hst Hh Hp;
    cbn [pending sent stdout] in *; subst p.
  - destruct oks; [|done].
    cbn [app dji_hist_loop]. rewrite re_get_answered, Hst, Hh. reflexivity.
  - destruct oks as [|r oks]; [done|].
    inversion Hok as [|r' f oks' fs [Hst' Hh'] Hrest]; subst.
    cbn [app dji_hist_loop]. rewrite re_get_answered, Hst', Hh'.
    cbn [Z.eqb negb Pos.eqb].
    rewrite (IH oks fs _ _ symbol symbols_rest bad rest e);
      cbn [pending sent stdout]; [|by injection Hlen|done|done|done|done].
    by rewrite <- !(assoc_L (++)).
Qed.

Lemma dji_hist_loop_disconnected (symbols_ok : list string) :
  forall (oks : list Response) (frames : list (list Row))
         (acc : list (Row * string)) (w : World)
         (symbol : string) (symbols_rest : list string),
    length symbols_ok = length oks ->
    Forall2 good_response oks frames ->
    pending w = oks ->
    dji_hist_loop (symbols_ok ++ symbol :: symbols_rest) acc w
    = (Raised ConnectionError,
       MkWorld [] (sent w ++ (symbol_url <$> symbols_ok ++ [symbol])) (stdout w)).
Proof.
  induction symbols_ok as [|s ss IH];
    intros oks frames acc [p sn out] symbol symbols_rest Hlen Hok Hp;
    cbn [pending sent stdout] in *; subst p.
  - destruct oks; [|done]. reflexivity.
  - destruct oks as [|r oks]; [done|].
    inversion Hok as [|r' f oks' fs [Hst' Hh'] Hrest]; subst.
    cbn [app dji_hist_loop]. rewrite re_get_answered, Hst', Hh'.
    cbn [Z.eqb negb Pos.eqb].
    rewrite (IH oks fs _ _ symbol symbols_rest);
      cbn [pending sent stdout]; [|by injection Hlen|done|done].
    by rewrite <- !(assoc_L (++)).
Qed.

(** X11.  Only the status code is checked.  When a response has status
    200 but its body cannot be decoded or lacks the key [historical],
    the exception of the lookup ends the cell: nothing is printed and no
    later symbol is requested.  The same holds when the network gives
    no answer to a request (ConnectionError). *)
Theorem dji_hist_cell_raises_on_bad_body
    (dji_symbols symbols_ok : list string) (symbol : string)
    (symbols_rest : list string) (oks : list Response)
    (frames : list (list Row)) (w : World) :
  take 5 dji_symbols = symbols_ok ++ symbol :: symbols_rest ->
  length symbols_ok = length oks ->
  Forall2 good_response oks frames ->
  (forall bad rest e,
     status_code bad = 200 -> historical bad = Raised e ->
     pending w = oks ++ bad :: rest ->
     dji_hist_cell dji_symbols w
     = (Raised e,
        MkWorld rest (sent w ++ (symbol_url <$> symbols_ok ++ [symbol]))
                (stdout w))) /\
  (pending w = oks ->
   dji_hist_cell dji_symbols w
   = (Raised ConnectionError,
      MkWorld [] (sent w ++ (symbol_url <$> symbols_ok ++ [symbol])) (stdout w))).
Proof.
  intros Ht Hlen Hok. unfold dji_hist_cell. rewrite Ht. split.
  - intros bad rest e Hst Hh Hp.
    by apply (dji_hist_loop_raises symbols_ok oks frames [] w symbol
                symbols_rest bad rest e).
  - intros Hp. by apply (dji_hist_loop_disconnected symbols_ok oks frames).
Qed.

Lemma dji_hist_cell_raises_on_bad_body_witness :
  dji_hist_cell ["AAPL"; "MSFT"; "IBM"]
    (MkWorld [answer 200 [price_row 1];
              MkResponse 200 (Some (JObject [("Error Message", [])]));
              answer 200 [price_row 3]] [] [])
  = (Raised KeyError,
     MkWorld [answer 200 [price_row 3]]
             [symbol_url "AAPL"; symbol_url "MSFT"] []) /\
  dji_hist_cell ["AAPL"; "MSFT"; "IBM"]
    (MkWorld [answer 200 [price_row 1]] [] [])
  = (Raised ConnectionError,
     MkWorld [] [symbol_url "AAPL"; symbol_url "MSFT"] []).
Proof.
  split.
  - apply (proj1 (dji_hist_cell_raises_on_bad_body
             ["AAPL"; "MSFT"; "IBM"] ["AAPL"] "MSFT" ["IBM"]
             [answer 200 [price_row 1]] [[price_row 1]]
             (MkWorld [answer 200 [price_row 1];
                       MkResponse 200 (Some (JObject [("Error Message", [])]));
                       answer 200 [price_row 3]] [] [])
             eq_refl eq_refl ltac:(repeat constructor))
             (MkResponse 200 (Some (JObject [("Error Message", [])])))
             [answer 200 [price_row 3]] KeyError);
      reflexivity.
  - apply (proj2 (dji_hist_cell_raises_on_bad_body
             ["AAPL"; "MSFT"; "IBM"] ["AAPL"] "MSFT" ["IBM"]
             [answer 200 [price_row 1]] [[price_row 1]]
             (MkWorld [answer 200 [price_row 1]] [] [])
             eq_refl eq_refl ltac:(repeat constructor))).
    reflexivity.
Defined.

End DownloadLoop.

(** ** Decorators (09_dash_II.py, 10_dash_II.py) *)

Section DecoratorFacts.
Import Decorators.

Example decorated_text_to_wrap :
  emphasize_decorator (E := Empty_set) text_to_wrap tt
  = ([header; "my text"; footer], inl tt).
Proof. reflexivity. Qed.


End DecoratorFacts.

(** ** Callbacks of the dashboards (10_dash_II.py) *)

Section CallbackFacts.
Import Dash DashMore.

Lemma rev_app_rev_app (s t : string) :
  String.rev_app (String.rev_app s t) EmptyString = String.rev_app t s.
Proof.
  revert t. induction s as [|a s IH]; intros t; [done|].
  cbn [String.rev_app]. by rewrite IH.
Qed.

Lemma string_rev_involutive (s : string) : String.rev (String.rev s) = s.
Proof. unfold String.rev. by rewrite rev_app_rev_app. Qed.

Lemma string_rev_empty (s : string) : String.rev s = EmptyString -> s = EmptyString.
Proof. intros H. by rewrite <- (string_rev_involutive s), H. Qed.

(** X13.  The name callback returns [None] exactly when the first name
    is missing or empty, also when the last name is missing; with a
    first name and no last name it raises TypeError.  When it returns a
    pair, feeding the pair back gives the two names it was called with:
    the reversal undoes itself. *)
Theorem div_outext_reverses_back (fname lname : option string) :
  (div_outext fname lname = inl None
   <-> fname = None \/ fname = Some EmptyString) /\
  (div_outext fname lname = inr TypeError
   <-> (exists f, fname = Some f /\ f <> EmptyString) /\ lname = None) /\
  (forall a b, div_outext fname lname = inl (Some (a, b)) ->
     div_outext (Some a) (Some b) = inl (Some (default EmptyString fname,
                                               default EmptyString lname))).
Proof.
  unfold div_outext. destruct fname as [f|].
  - destruct (decide (f = EmptyString)) as [->|Hf].
    + split; [split; auto|]. split; [|done].
      split; [done|]. by intros [(f & [= <-] & Hne) _].
    + destruct lname as [l|].
      * split; [split; [done | intros [|[= ->]]; done]|].
        split; [split; [done | by intros [_ ?]]|].
        intros a b [= <- <-].
        destruct (decide (String.rev f = EmptyString)) as [E|_].
        -- by apply string_rev_empty in E.
        -- by rewrite !string_rev_involutive.
      * split; [split; [done | intros [|[= ->]]; done]|].
        split; [|done]. split; [|done]. intros _. split; [|done]. by exists f.
  - split; [split; auto|]. split; [|done].
    split; [done|]. by intros [(f & ? & _) _].
Qed.

Lemma div_outext_reverses_back_witness :
  div_outext (Some "nitram") (Some "rehtul") = inl (Some ("martin", "luther")).
Proof.
  apply (proj2 (proj2 (div_outext_reverses_back (Some "martin") (Some "luther")))
           "nitram" "rehtul").
  reflexivity.
Defined.

End CallbackFacts.

Section DropdownFacts.
Import Dash DashMore.

Lemma unique_from_elem (l : list string) :
  forall seen x, x ∈ unique_from seen l <-> x ∈ l /\ x ∉ seen.
Proof.
  induction l as [|y l IH]; intros seen x; cbn [unique_from].
  - split; [intros H; by inversion H | intros [H _]; by inversion H].
  - destruct (bool_decide_reflect (y ∈ seen)) as [Hy|Hy].
    + rewrite IH, elem_of_cons. split; [intros [? ?]; auto|].
      intros [[->|?] ?]; done.
    + rewrite !elem_of_cons, IH, elem_of_cons. split.
      * intros [->|[? ?]]; [auto|]. split; [auto|]. intros ?; tauto.
      * intros [[->|?] ?]; [auto|].
        destruct (decide (x = y)) as [->|?]; [auto|]. right. split; [done|].
        intros [?|?]; done.
Qed.

Lemma unique_from_NoDup (l : list string) :
  forall seen, NoDup (unique_from seen l).
Proof.
  induction l as [|y l IH]; intros seen; cbn [unique_from]; [constructor|].
  destruct (bool_decide (y ∈ seen)); [apply IH|].
  apply NoDup_cons. split; [|apply IH].
  rewrite unique_from_elem. intros [_ H]. apply H. by left.
Qed.

Lemma unique_head (l : list string) : head (unique l) = head l.
Proof.
  unfold unique. destruct l as [|y l]; [done|]. cbn [unique_from].
  destruct (bool_decide_reflect (y ∈ [])) as [H|_]; [by inversion H | done].
Qed.

(** Where [unique] puts a value: everything that comes earlier in the
    list was seen before or has been put earlier. *)
Lemma unique_from_split (col : list string) :
  forall seen before s after,
    unique_from seen col = before ++ s :: after ->
    exists col1 col2,
      col = col1 ++ s :: col2 /\
      forall y, y ∈ col1 -> y ∈ seen \/ y ∈ before.
Proof.
  induction col as [|x col IH]; intros seen before s after E;
    cbn [unique_from] in E.
  - by destruct before.
  - destruct (bool_decide_reflect (x ∈ seen)) as [Hx|Hx].
    + destruct (IH _ _ _ _ E) as (col1 & col2 & -> & Hc).
      exists (x :: col1), col2. split; [done|].
      intros y Hy. apply elem_of_cons in Hy as [->|Hy]; [by left | by apply Hc].
    + destruct before as [|b before].
      * injection E as <- _. exists [], col. split; [done|].
        intros y Hy. by inversion Hy.
      * injection E as <- E.
        destruct (IH _ _ _ _ E) as (col1 & col2 & -> & Hc).
        exists (x :: col1), col2. split; [done|].
        intros y Hy. apply elem_of_cons in Hy as [->|Hy]; [right; by left|].
        destruct (Hc y Hy) as [Hs|Hb]; [|right; by right].
        apply elem_of_cons in Hs as [->|Hs]; [right; by left | by left].
Qed.

(** The values of the options are the distinct symbols of the sector. *)
Lemma set_options_values (df : SectorFrame) (sector : string) :
  value <$> set_options_company_dd df sector
  = unique (snd <$> filter (fun row => row.1 = sector) df).
Proof.
  unfold set_options_company_dd. rewrite <- list_fmap_compose.
  generalize (unique (snd <$> filter (fun row => row.1 = sector) df)).
  intros l. induction l as [|x l IH]; [done|]. cbn. by rewrite IH.
Qed.

Lemma set_options_head (df : SectorFrame) (sector : string) :
  head (value <$> set_options_company_dd df sector)
  = snd <$> head (filter (fun row => row.1 = sector) df).
Proof.
  rewrite set_options_values, unique_head. by destruct (filter _ df).
Qed.

(** X14.  The options the sector callback returns are the symbols of
    the rows of that sector, each once, and every option shows the
    symbol as its label.  They come in the order of first appearance in
    the frame: wherever a symbol stands in the options, the rows of the
    sector up to its first occurrence hold only symbols that stand
    before it in the options. *)
Theorem set_options_company_dd_lists_sector (df : SectorFrame) (sector : string) :
  let ops := set_options_company_dd df sector in
  let column := snd <$> filter (fun row => row.1 = sector) df in
  NoDup (value <$> ops) /\
  Forall (fun o => label o = value o) ops /\
  (forall sym, sym ∈ value <$> ops <-> (sector, sym) ∈ df) /\
  (forall before sym after,
     value <$> ops = before ++ sym :: after ->
     exists col1 col2,
       column = col1 ++ sym :: col2 /\ (sym ∉ col1) /\
       (forall y, y ∈ col1 -> y ∈ before)).
Proof.
  intros ops column. unfold ops. rewrite set_options_values. fold column.
  assert (Hnd : NoDup (unique column)) by apply unique_from_NoDup.
  split; [exact Hnd|]. split; [|split].
  - unfold set_options_company_dd. apply Forall_fmap, Forall_forall.
    by intros sym _.
  - intros sym. unfold unique. rewrite unique_from_elem.
    unfold column. rewrite list_elem_of_fmap. split.
    + intros [([s sym'] & -> & Hin) _]. apply list_elem_of_filter in Hin as [Hs Hin].
      cbn in *. by subst.
    + intros Hin. split; [|intros H; by inversion H].
      exists (sector, sym). split; [done|]. by apply list_elem_of_filter.
  - intros before sym after E.
    destruct (unique_from_split column [] before sym after E)
      as (col1 & col2 & Hcol & Hc).
    assert (Hc' : forall y, y ∈ col1 -> y ∈ before).
    { intros y Hy. destruct (Hc y Hy) as [H|H]; [by inversion H | done]. }
    exists col1, col2. split; [done|]. split; [|done].
    intros Hin. apply Hc' in Hin.
    rewrite E in Hnd. apply NoDup_app in Hnd as (_ & Hdis & _).
    apply (Hdis sym Hin). by left.
Qed.

Lemma set_options_company_dd_lists_sector_witness :
  exists col1 col2,
    ["CVX"; "AAPL"; "MSFT"; "AAPL"; "XOM"] = col1 ++ "MSFT" :: col2 /\
    ("MSFT" ∉ col1) /\ (forall y, y ∈ col1 -> y ∈ ["CVX"; "AAPL"]).
Proof.
  apply (proj2 (proj2 (proj2 (set_options_company_dd_lists_sector
           [("Oil", "CVX"); ("Oil", "AAPL"); ("Tech", "IBM"); ("Oil", "MSFT");
            ("Oil", "AAPL"); ("Oil", "XOM")] "Oil")))
           ["CVX"; "AAPL"] "MSFT" ["XOM"]).
  reflexivity.
Defined.

(** X15.  The two chained callbacks together: the default company of
    a sector is the symbol of the first row of that sector, and the
    second callback raises IndexError exactly when the frame has no row
    of the sector. *)
Theorem default_company_is_first_of_sector (df : SectorFrame) (sector : string) :
  (forall sym,
     set_default_company_dd (set_options_company_dd df sector) = inl sym <->
     exists before after,
       df = before ++ (sector, sym) :: after /\
       Forall (fun row => row.1 <> sector) before) /\
  (set_default_company_dd (set_options_company_dd df sector) = inr IndexError <->
   Forall (fun row => row.1 <> sector) df).
Proof.
  assert (Hhead : set_default_company_dd (set_options_company_dd df sector)
                  = match head (filter (fun row => row.1 = sector) df) with
                    | Some row => inl row.2
                    | None => inr IndexError
                    end).
  { pose proof (set_options_head df sector) as Hh.
    destruct (set_options_company_dd df sector) as [|o ops];
      destruct (filter _ df) as [|row rows]; cbn in *; congruence. }
  rewrite Hhead. clear Hhead.
  induction df as [|[s y] df [IH1 IH2]].
  - cbn. split.
    + intros sym. split; [done|]. intros (before & after & E & _).
      by destruct before.
    + done.
  - destruct (decide (s = sector)) as [->|Hne].
    + rewrite (filter_cons_True (fun row : string * string => row.1 = sector)
                 (sector, y) df) by done.
      cbn [head snd]. split.
      * intros sym. split.
        -- intros [= <-]. by exists [], df.
        -- intros (before & after & E & Hb). destruct before as [|[s' y'] before].
           ++ by injection E as <- _.
           ++ injection E as <- <- _. apply Forall_cons in Hb as [Hb _]. done.
      * split; [done|]. intros H. apply Forall_cons in H as [H _]. done.
    + rewrite (filter_cons_False (fun row : string * string => row.1 = sector)
                 (s, y) df) by done.
      split.
      * intros sym. rewrite IH1. split.
        -- intros (before & after & -> & Hb). exists ((s, y) :: before), after.
           split; [done|]. by apply Forall_cons.
        -- intros (before & after & E & Hb). destruct before as [|[s' y'] before].
           ++ by injection E as -> _.
           ++ injection E as <- <- ->. apply Forall_cons in Hb as [_ Hb].
              by exists before, after.
      * rewrite IH2. split; [intros H; by apply Forall_cons|].
        intros H. by apply Forall_cons in H as [_ H].
Qed.

Lemma default_company_is_first_of_sector_witness :
  set_default_company_dd
    (set_options_company_dd
       [("Energy", "CVX"); ("Technology", "AAPL"); ("Technology", "MSFT");
        ("Technology", "AAPL")] "Technology") = inl "AAPL" /\
  set_default_company_dd (set_options_company_dd [("Energy", "CVX")] "Technology")
  = inr IndexError.
Proof.
  split.
  - apply (proj1 (default_company_is_first_of_sector _ "Technology")).
    exists [("Energy", "CVX")], [("Technology", "MSFT"); ("Technology", "AAPL")].
    split; [reflexivity|]. repeat constructor. discriminate.
  - apply (proj2 (default_company_is_first_of_sector _ "Technology")).
    repeat constructor. discriminate.
Defined.

Lemma month_marks_nat (n : nat) (k : Z) :
  month_marks (Z.of_nat n) !! k
  = if decide (1 <= k <= Z.of_nat n) then Some (pretty k) else None.
Proof.
  unfold month_marks, Basics.py_range. induction n as [|n IH].
  - rewrite seqZ_nil by done. cbn [foldl]. rewrite lookup_empty.
    by destruct (decide (1 <= k <= Z.of_nat 0)); [lia|].
  - rewrite seqZ_S, foldl_app. cbn [foldl]. rewrite Z.add_0_l.
    destruct (decide (k = Z.of_nat n + 1)) as [->|Hne].
    + rewrite lookup_insert_eq.
      by destruct (decide (1 <= Z.of_nat n + 1 <= Z.of_nat (S n))); [|lia].
    + rewrite lookup_insert_ne by done. rewrite IH.
      destruct (decide (1 <= k <= Z.of_nat n)),
               (decide (1 <= k <= Z.of_nat (S n))); done || lia.
Qed.

(** X16.  The marks of the month slider: the dict has exactly the keys
    [1, ..., max] and maps each to its decimal string; for a maximum
    below one it is empty. *)
Theorem month_marks_lookup (max_month k : Z) :
  month_marks max_month !! k
  = if decide (1 <= k <= max_month) then Some (pretty k) else None.
Proof.
  destruct (Z.le_gt_cases 0 max_month) as [Hm|Hm].
  - rewrite <- (Z2Nat.id max_month) at 1 by done. rewrite month_marks_nat.
    rewrite Z2Nat.id by done. reflexivity.
  - unfold month_marks, Basics.py_range. rewrite seqZ_nil by lia. cbn [foldl].
    rewrite lookup_empty. by destruct (decide (1 <= k <= max_month)); [lia|].
Qed.

End DropdownFacts.
